(** * The submission API of backend/app.py

    A shallow embedding of the Flask handlers of [backend/app.py]
    ([load_data], [save_data], [get_next_id], [submit_data],
    [get_all_data], [get_data_by_id]) together with the fragment of the
    Python object model they rely on, and the properties of the
    validation and persistence core.

    Python values that come out of [json.load] / [request.get_json] are
    embedded in [pyval]; handlers run in a small state-and-exception
    monad over the state of the data file. *)

From Stdlib Require Import ZArith NArith List String Ascii Bool Lia.
From Stdlib Require Import DecimalString.
From Corelib Require Import SpecFloat.
Import ListNotations.

Open Scope Z_scope.

(** ** Python strings

    A [str] is a sequence of Unicode code points. *)

Definition pystr := list N.

(** ASCII literals of the source. *)
Definition lit (s : string) : pystr := map N_of_ascii (list_ascii_of_string s).

Fixpoint pystr_eqb (a b : pystr) : bool :=
  match a, b with
  | [], [] => true
  | x :: a', y :: b' => N.eqb x y && pystr_eqb a' b'
  | _, _ => false
  end.

(** [str.isspace] on one code point (the characters [str.strip()] removes). *)
Definition py_isspace (c : N) : bool :=
  ((9 <=? c) && (c <=? 13) || (28 <=? c) && (c <=? 32)
   || (c =? 133) || (c =? 160) || (c =? 5760)
   || (8192 <=? c) && (c <=? 8202)
   || (c =? 8232) || (c =? 8233) || (c =? 8239) || (c =? 8287)
   || (c =? 12288))%N.

Fixpoint lstrip (s : pystr) : pystr :=
  match s with
  | c :: r => if py_isspace c then lstrip r else s
  | [] => []
  end.

Definition rstrip (s : pystr) : pystr := rev (lstrip (rev s)).

(** [s.strip()] *)
Definition strip (s : pystr) : pystr := rstrip (lstrip s).

(** [str(z)] for an [int]. *)
Definition int_str (z : Z) : pystr := lit (NilZero.string_of_int (Z.to_int z)).

(** ** The part of the Python runtime taken as given

    Floating-point numbers and the text conversions that depend on
    Python's tables are an interface of the embedding: the handlers are
    verified for every implementation of it.
    - [float_bool x] is [bool(x)];
    - [float_repr x] is [repr(x)] (also [str(x)]);
    - [float_of_int z] is [float(z)], [None] standing for OverflowError;
    - [float_of_str s] is [float(s)], [None] standing for ValueError;
    - [float_cmp], [float_cmp_int] compare a float with a float or an
      int ([None] when a NaN makes them unordered);
    - [float_succ x] is [x + 1];
    - [str_repr s] is [repr(s)] for a [str]. *)

Class PyRuntime := {
  pyfloat : Type;
  float_bool : pyfloat -> bool;
  float_repr : pyfloat -> pystr;
  float_of_int : Z -> option pyfloat;
  float_of_str : pystr -> option pyfloat;
  float_cmp : pyfloat -> pyfloat -> option comparison;
  float_cmp_int : pyfloat -> Z -> option comparison;
  float_succ : pyfloat -> pyfloat;
  str_repr : pystr -> pystr
}.

(** ** JSON-shaped Python values *)

Section Values.
Context {R : PyRuntime}.

#[warnings="-register-all"] Inductive pyval :=
| PNone
| PBool (b : bool)
| PInt (z : Z)
| PFloat (f : pyfloat)
| PStr (s : pystr)
| PList (l : list pyval)
| PDict (d : list (pystr * pyval)).

(** A [dict] in insertion order; keys are unique in a dict built by
    [json.loads] or by the literals below. *)
Definition dict := list (pystr * pyval).

Fixpoint dict_get (d : dict) (k : pystr) : option pyval :=
  match d with
  | [] => None
  | (k', v) :: r => if pystr_eqb k' k then Some v else dict_get r k
  end.

(** [d[k] = v] *)
Fixpoint dict_set (d : dict) (k : pystr) (v : pyval) : dict :=
  match d with
  | [] => [(k, v)]
  | (k', v') :: r =>
      if pystr_eqb k' k then (k', v) :: r else (k', v') :: dict_set r k v
  end.

Fixpoint dict_remove (d : dict) (k : pystr) : dict :=
  match d with
  | [] => []
  | (k', v) :: r =>
      if pystr_eqb k' k then dict_remove r k else (k', v) :: dict_remove r k
  end.

(** [bool(v)]: what [not v] and [if v] test. *)
Definition py_truth (v : pyval) : bool :=
  match v with
  | PNone => false
  | PBool b => b
  | PInt z => negb (z =? 0)
  | PFloat f => float_bool f
  | PStr s => match s with [] => false | _ => true end
  | PList l => match l with [] => false | _ => true end
  | PDict d => match d with [] => false | _ => true end
  end.

(** [repr(v)] *)
Fixpoint py_repr (v : pyval) : pystr :=
  match v with
  | PNone => lit "None"
  | PBool b => if b then lit "True" else lit "False"
  | PInt z => int_str z
  | PFloat f => float_repr f
  | PStr s => str_repr s
  | PList l =>
      lit "["
      ++ (fix items (l : list pyval) : pystr :=
            match l with
            | [] => []
            | x :: r =>
                py_repr x ++ match r with [] => [] | _ => lit ", " ++ items r end
            end) l
      ++ lit "]"
  | PDict d =>
      lit "{"
      ++ (fix items (d : list (pystr * pyval)) : pystr :=
            match d with
            | [] => []
            | (k, x) :: r =>
                str_repr k ++ lit ": " ++ py_repr x
                ++ match r with [] => [] | _ => lit ", " ++ items r end
            end) d
      ++ lit "}"
  end.

(** [str(v)] *)
Definition py_str (v : pyval) : pystr :=
  match v with
  | PStr s => s
  | _ => py_repr v
  end.

(** The numeric tower: [bool] is an [int]. *)
Definition as_number (v : pyval) : option (Z + pyfloat) :=
  match v with
  | PBool b => Some (inl (if b then 1 else 0))
  | PInt z => Some (inl z)
  | PFloat f => Some (inr f)
  | _ => None
  end.

Definition number_cmp (a b : Z + pyfloat) : option comparison :=
  match a, b with
  | inl x, inl y => Some (x ?= y)
  | inr x, inr y => float_cmp x y
  | inr x, inl y => float_cmp_int x y
  | inl x, inr y => option_map CompOpp (float_cmp_int y x)
  end.

Definition is_Eq (c : option comparison) : bool :=
  match c with Some Eq => true | _ => false end.

Definition is_Gt (c : option comparison) : bool :=
  match c with Some Gt => true | _ => false end.

(** [a == b], comparing by value (two NaN are never equal). *)
Fixpoint py_eq (a b : pyval) : bool :=
  match a with
  | PNone => match b with PNone => true | _ => false end
  | PBool _ | PInt _ | PFloat _ =>
      match as_number a, as_number b with
      | Some x, Some y => is_Eq (number_cmp x y)
      | _, _ => false
      end
  | PStr s => match b with PStr t => pystr_eqb s t | _ => false end
  | PList l =>
      match b with
      | PList l' =>
          (fix all2 (l l' : list pyval) : bool :=
             match l, l' with
             | [], [] => true
             | x :: r, y :: r' => py_eq x y && all2 r r'
             | _, _ => false
             end) l l'
      | _ => false
      end
  | PDict d =>
      match b with
      | PDict d' =>
          Nat.eqb (List.length d) (List.length d')
          && (fix all (d : list (pystr * pyval)) : bool :=
                match d with
                | [] => true
                | (k, x) :: r =>
                    match dict_get d' k with
                    | Some y => py_eq x y && all r
                    | None => false
                    end
                end) d
      | _ => false
      end
  end.

(** [a > b] on code points, as [str] compares. *)
Fixpoint pystr_gt (a b : pystr) : bool :=
  match a, b with
  | [], _ => false
  | _ :: _, [] => true
  | x :: a', y :: b' => if N.eqb x y then pystr_gt a' b' else N.ltb y x
  end.

(** ** Exceptions

    The exceptions the handlers can meet.  [ValueError] carries
    [str(e)]; it also stands for its subclasses (json.JSONDecodeError),
    which [except ValueError] catches alike.  [BadRequest] is what
    [request.get_json()] raises on a body that is not JSON. *)
Inductive exn :=
| ValueError (msg : pystr)
| TypeError
| AttributeError
| OverflowError
| OSError
| BadRequest.

(** [a > b]; ordering is defined inside the numeric tower, between two
    [str] and between two lists, and raises TypeError elsewhere. *)
Fixpoint py_gt (a b : pyval) : exn + bool :=
  match as_number a, as_number b with
  | Some x, Some y => inr (is_Gt (number_cmp x y))
  | _, _ =>
      match a with
      | PStr s => match b with PStr t => inr (pystr_gt s t) | _ => inl TypeError end
      | PList l =>
          match b with
          | PList l' =>
              (fix lex (l l' : list pyval) : exn + bool :=
                 match l, l' with
                 | x :: r, y :: r' => if py_eq x y then lex r r' else py_gt x y
                 | _ :: _, [] => inr true
                 | [], _ => inr false
                 end) l l'
          | _ => inl TypeError
          end
      | _ => inl TypeError
      end
  end.

(** [v + 1] *)
Definition py_add1 (v : pyval) : exn + pyval :=
  match v with
  | PBool b => inr (PInt ((if b then 1 else 0) + 1))
  | PInt z => inr (PInt (z + 1))
  | PFloat f => inr (PFloat (float_succ f))
  | _ => inl TypeError
  end.

(** [v.get(k, default)]: only a dict has [get]. *)
Definition py_get (v : pyval) (k : pystr) (default : pyval) : exn + pyval :=
  match v with
  | PDict d => inr (match dict_get d k with Some x => x | None => default end)
  | _ => inl AttributeError
  end.

(** [iter(v)]: the items a [for] or a generator pulls out of [v]. *)
Definition py_iter (v : pyval) : exn + list pyval :=
  match v with
  | PList l => inr l
  | PDict d => inr (map (fun kv => PStr (fst kv)) d)
  | PStr s => inr (map (fun c => PStr [c]) s)
  | _ => inl TypeError
  end.

(** [len(v)] *)
Definition py_len (v : pyval) : exn + Z :=
  match v with
  | PList l => inr (Z.of_nat (List.length l))
  | PDict d => inr (Z.of_nat (List.length d))
  | PStr s => inr (Z.of_nat (List.length s))
  | _ => inl TypeError
  end.

(** [v.append(x)]: only a list has [append]. *)
Definition py_append (v x : pyval) : exn + pyval :=
  match v with
  | PList l => inr (PList (l ++ [x]))
  | _ => inl AttributeError
  end.

(** [float(v)] *)
Definition py_float (v : pyval) : exn + pyfloat :=
  match v with
  | PBool b =>
      match float_of_int (if b then 1 else 0) with
      | Some f => inr f
      | None => inl OverflowError
      end
  | PInt z =>
      match float_of_int z with
      | Some f => inr f
      | None => inl OverflowError
      end
  | PFloat f => inr f
  | PStr s =>
      match float_of_str s with
      | Some f => inr f
      | None =>
          inl (ValueError (lit "could not convert string to float: " ++ str_repr s))
      end
  | _ => inl TypeError
  end.

End Values.

(** ** The data file and the handler monad

    [file_state] is what [open(DATA_FILE)] followed by [json.load]
    observes: no file, content that does not parse (the message is that
    of the decoder's exception), or a parsed value.  A value written by
    [json.dump] is read back unchanged by [json.load]. *)

Section Handlers.
Context {R : PyRuntime}.

Inductive file_state :=
| Missing
| Corrupt (msg : pystr)
| Holds (v : pyval).

(** What happens to one [open(DATA_FILE, 'w')] + [json.dump]: it
    completes; [open] fails and the file is untouched; or the dump
    fails after [open] has truncated the file, leaving a prefix of the
    array that no longer parses. *)
Inductive write_outcome :=
| WriteOk
| WriteOpenFails
| WriteDumpFails (msg : pystr).

(** The environment of the process: the successive readings of
    [datetime.now().isoformat()] and the fate of the successive writes. *)
Variable clock : nat -> pystr.
Variable disk : nat -> write_outcome.

Record world := {
  file : file_state;
  loads : nat;   (* reads of the data file so far *)
  saves : nat;   (* writes attempted so far *)
  ticks : nat    (* clock readings so far *)
}.

Definition M (A : Type) : Type := world -> (exn + A) * world.

Definition ret {A} (a : A) : M A := fun w => (inr a, w).

Definition raise {A} (e : exn) : M A := fun w => (inl e, w).

Definition bind {A B} (c : M A) (k : A -> M B) : M B :=
  fun w =>
    match c w with
    | (inr a, w') => k a w'
    | (inl e, w') => (inl e, w')
    end.

(** [try: c except Exception as e: h e] *)
Definition try_except {A} (c : M A) (h : exn -> M A) : M A :=
  fun w =>
    match c w with
    | (inr a, w') => (inr a, w')
    | (inl e, w') => h e w'
    end.

Definition lift {A} (r : exn + A) : M A :=
  match r with
  | inr a => ret a
  | inl e => raise e
  end.

Definition ebind {A B} (r : exn + A) (k : A -> exn + B) : exn + B :=
  match r with
  | inr a => k a
  | inl e => inl e
  end.

Notation "x <- c ;; k" := (bind c (fun x => k))
  (at level 61, c at next level, right associativity).
Notation "x <~ r ;; k" := (ebind r (fun x => k))
  (at level 61, r at next level, right associativity).

Definition tick (w : world) : world :=
  {| file := file w; loads := loads w; saves := saves w;
     ticks := S (ticks w) |}.

Definition count_load (w : world) : world :=
  {| file := file w; loads := S (loads w); saves := saves w;
     ticks := ticks w |}.

Definition count_save (f : file_state) (w : world) : world :=
  {| file := f; loads := loads w; saves := S (saves w); ticks := ticks w |}.

(** [datetime.now().isoformat()] *)
Definition now : M pystr :=
  fun w => (inr (clock (ticks w)), tick w).

(** [with open(DATA_FILE, 'r') as f: return json.load(f)] *)
Definition read_json : M pyval :=
  fun w =>
    match file w with
    | Holds v => (inr v, count_load w)
    | Missing => (inl OSError, count_load w)
    | Corrupt msg => (inl (ValueError msg), count_load w)
    end.

(** [with open(DATA_FILE, 'w') as f: json.dump(data, f, ...)] *)
Definition write_json (data : pyval) : M unit :=
  fun w =>
    match disk (saves w) with
    | WriteOk => (inr tt, count_save (Holds data) w)
    | WriteOpenFails => (inl OSError, count_save (file w) w)
    | WriteDumpFails msg => (inl OSError, count_save (Corrupt msg) w)
    end.

(** The module-level initialisation: create the data file holding [[]]
    when it does not exist. *)
Definition startup (w : world) : world :=
  match file w with
  | Missing =>
      {| file := Holds (PList []); loads := loads w; saves := saves w;
         ticks := ticks w |}
  | _ => w
  end.

(** ** Store *)

Definition load_data : M pyval :=
  try_except read_json (fun _ => ret (PList [])).

Definition save_data (data : pyval) : M bool :=
  try_except (_ <- write_json data ;; ret true) (fun _ => ret false).

(** [item.get('id', 0)] *)
Definition item_id (item : pyval) : exn + pyval :=
  py_get item (lit "id") (PInt 0).

(** The loop of [max] over the generator: each item is pulled, its id
    taken, and kept when it is greater than the maximum so far. *)
Fixpoint max_loop (cur : pyval) (items : list pyval) : exn + pyval :=
  match items with
  | [] => inr cur
  | item :: rest =>
      v <~ item_id item ;;
      b <~ py_gt v cur ;;
      max_loop (if b then v else cur) rest
  end.

(** [max(item.get('id', 0) for item in data)] *)
Definition max_id (data : pyval) : exn + pyval :=
  items <~ py_iter data ;;
  match items with
  | [] => inl (ValueError (lit "max() arg is an empty sequence"))
  | item :: rest => v <~ item_id item ;; max_loop v rest
  end.

Definition get_next_id : M pyval :=
  data <- load_data ;;
  if negb (py_truth data) then ret (PInt 1)
  else lift (m <~ max_id data ;; py_add1 m).

(** ** Requests and responses *)

(** What Flask hands to the handler: a request whose Content-Type is
    not JSON, one whose body does not parse ([get_json] raises), or a
    parsed body. *)
Inductive request :=
| NotJson
| Malformed
| Json (v : pyval).

Definition is_json (r : request) : bool :=
  match r with NotJson => false | _ => true end.

Definition get_json (r : request) : M pyval :=
  match r with
  | Json v => ret v
  | _ => raise BadRequest
  end.

(** [jsonify(body), status] *)
Record response := { status : Z; body : dict }.

Definition error_response (code : Z) (msg : pystr) : response :=
  {| status := code; body := [(lit "error", PStr msg)] |}.

(** ** Submission handler *)

Definition required_fields : list pystr := [lit "title"; lit "category"].

(** [data.get(k, default)] once [data] is known to be a dict. *)
Definition dget (d : dict) (k : pystr) (default : pyval) : pyval :=
  match dict_get d k with
  | Some v => v
  | None => default
  end.

(** [[field for field in required_fields if not data.get(field)]] *)
Definition missing_fields (d : dict) : list pystr :=
  filter (fun field => negb (py_truth (dget d field PNone))) required_fields.

(** [str(data.get(k, '')).strip()] *)
Definition stripped (d : dict) (k : pystr) : pyval :=
  PStr (strip (py_str (dget d k (PStr [])))).

(** [str(data.get(k, '')).strip() if data.get(k) else None] *)
Definition optional_stripped (d : dict) (k : pystr) : pyval :=
  if py_truth (dget d k PNone) then stripped d k else PNone.

(** [float(data.get('value')) if data.get('value') is not None else None] *)
Definition coerce_value (d : dict) : exn + pyval :=
  match dget d (lit "value") PNone with
  | PNone => inr PNone
  | v => f <~ py_float v ;; inr (PFloat f)
  end.

(** The dict literal [sanitized_data], its items evaluated in order. *)
Definition sanitize (d : dict) : M dict :=
  let title := stripped d (lit "title") in
  let description := optional_stripped d (lit "description") in
  let category := stripped d (lit "category") in
  value <- lift (coerce_value d) ;;
  let memo := optional_stripped d (lit "memo") in
  t <- now ;;
  let timestamp := dget d (lit "timestamp") (PStr t) in
  t' <- now ;;
  ret [(lit "title", title);
       (lit "description", description);
       (lit "category", category);
       (lit "value", value);
       (lit "memo", memo);
       (lit "timestamp", timestamp);
       (lit "received_at", PStr t')].

Definition missing_fields_response (missing : list pystr) : response :=
  {| status := 400;
     body := [(lit "error", PStr (lit "Missing required fields"));
              (lit "missing_fields", PList (map PStr missing))] |}.

(** First half of the [try] block of [submit_data], up to the
    sanitized record: either an early [return] of a 400 response
    ([inl]) or [sanitized_data] ([inr]).  [data.get] exists only on a
    dict: on any other truthy body the first [data.get] raises
    AttributeError. *)
Definition validate (req : request) : M (response + dict) :=
  if negb (is_json req) then
    ret (inl (error_response 400 (lit "Content-Type must be application/json")))
  else
    data <- get_json req ;;
    if negb (py_truth data) then
      ret (inl (error_response 400 (lit "Empty request body")))
    else
      match data with
      | PDict d =>
          match missing_fields d with
          | (_ :: _) as missing => ret (inl (missing_fields_response missing))
          | [] => sanitized_data <- sanitize d ;; ret (inr sanitized_data)
          end
      | _ => raise AttributeError
      end.

(** Second half: assign the id, load, append, save, answer. *)
Definition persist (sanitized_data : dict) : M response :=
  id <- get_next_id ;;
  let sanitized_data := dict_set sanitized_data (lit "id") id in
  all_data <- load_data ;;
  all_data <- lift (py_append all_data (PDict sanitized_data)) ;;
  saved <- save_data all_data ;;
  if negb saved then
    ret (error_response 500 (lit "Failed to save data"))
  else
    ret {| status := 201;
           body := [(lit "success", PBool true);
                    (lit "id", dget sanitized_data (lit "id") PNone);
                    (lit "message", PStr (lit "Data received successfully"))] |}.

(** The body of the [try] block. *)
Definition submit_try (req : request) : M response :=
  checked <- validate req ;;
  match checked with
  | inl early => ret early
  | inr sanitized_data => persist sanitized_data
  end.

(** The two handlers of the [try] block, [except ValueError] and
    [except Exception]. *)
Definition handle (out : (exn + response) * world) : response * world :=
  match out with
  | (inr r, w') => (r, w')
  | (inl (ValueError msg), w') =>
      (error_response 400 (lit "Validation error: " ++ msg), w')
  | (inl _, w') => (error_response 500 (lit "Internal server error"), w')
  end.

Definition submit_data (req : request) (w : world) : response * world :=
  handle (submit_try req w).

(** Whether the validation half lets the request through. *)
Definition passes_validation (req : request) (w : world) : bool :=
  match fst (validate req w) with
  | inr (inr _) => true
  | _ => false
  end.

(** Requests handled one after the other. *)
Fixpoint run (reqs : list request) (w : world) : list response * world :=
  match reqs with
  | [] => ([], w)
  | req :: rest =>
      let '(r, w1) := submit_data req w in
      let '(rs, w2) := run rest w1 in
      (r :: rs, w2)
  end.

(** ** Read path *)

Definition get_all_data (w : world) : response * world :=
  match (data <- load_data ;;
         count <- lift (py_len data) ;;
         ret {| status := 200;
                body := [(lit "success", PBool true);
                         (lit "count", PInt count);
                         (lit "data", data)] |}) w with
  | (inr r, w') => (r, w')
  | (inl _, w') => (error_response 500 (lit "Failed to retrieve data"), w')
  end.

(** [next((item for item in all_data if item.get('id') == data_id), None)] *)
Fixpoint first_with_id (data_id : Z) (items : list pyval) : exn + pyval :=
  match items with
  | [] => inr PNone
  | item :: rest =>
      v <~ py_get item (lit "id") PNone ;;
      if py_eq v (PInt data_id) then inr item else first_with_id data_id rest
  end.

Definition get_data_by_id (data_id : Z) (w : world) : response * world :=
  match (all_data <- load_data ;;
         items <- lift (py_iter all_data) ;;
         data_item <- lift (first_with_id data_id items) ;;
         if negb (py_truth data_item) then
           ret (error_response 404 (lit "Data not found"))
         else
           ret {| status := 200;
                  body := [(lit "success", PBool true);
                           (lit "data", data_item)] |}) w with
  | (inr r, w') => (r, w')
  | (inl _, w') => (error_response 500 (lit "Failed to retrieve data"), w')
  end.

(** ** Remaining endpoints *)

(** [health_check]: a constant answer stamped with the clock. *)
Definition health_check (w : world) : response * world :=
  ({| status := 200;
      body := [(lit "status", PStr (lit "ok"));
               (lit "timestamp", PStr (clock (ticks w)));
               (lit "service", PStr (lit "PWA Offline Data Collector API"))] |},
   tick w).

(** The [errorhandler(404)] and [errorhandler(500)] answers. *)
Definition not_found : response :=
  error_response 404 (lit "Endpoint not found").

Definition internal_error : response :=
  error_response 500 (lit "Internal server error").

End Handlers.

(** ** An executable runtime

    IEEE binary64 from [SpecFloat], to run the handlers on concrete
    requests.  [float_of_str] reads the syntax of [float()] over ASCII
    digits (sign, digits with single underscores, fraction, exponent,
    [inf], [infinity], [nan]) and rounds to nearest-even; [float_repr] prints
    the shortest digits that read back to the same float; [str_repr]
    copies code points above U+00FF as they are. *)

Module Binary64.

Definition prec : Z := 53.
Definition emax : Z := 1024.

Definition float_bool (f : spec_float) : bool :=
  match f with
  | S754_zero _ => false
  | _ => true
  end.

Definition float_of_int (z : Z) : option spec_float :=
  match binary_normalize prec emax z 0 false with
  | S754_infinity _ => None
  | f => Some f
  end.

Definition float_cmp_int (f : spec_float) (z : Z) : option comparison :=
  match f with
  | S754_nan => None
  | S754_infinity s => Some (if s then Lt else Gt)
  | S754_zero _ => Some (0 ?= z)
  | S754_finite s m e =>
      let v := cond_Zopp s (Zpos m) in
      Some (if 0 <=? e then v * 2 ^ e ?= z else v ?= z * 2 ^ (- e))
  end.

Definition float_succ (f : spec_float) : spec_float :=
  SFadd prec emax f (binary_normalize prec emax 1 0 false).

Definition ndigits (z : Z) : Z := Z.of_nat (List.length (int_str z)).

(** The binary64 nearest to [(-1)^s * m * 10^e], for [0 <= m]. *)
Definition of_decimal (s : bool) (m e : Z) : spec_float :=
  if m =? 0 then S754_zero s
  else if 310 <? ndigits m + e then S754_infinity s
  else if ndigits m + e <? -330 then S754_zero s
  else if 0 <=? e then binary_normalize prec emax (cond_Zopp s (m * 10 ^ e)) 0 s
  else
    let d := 10 ^ (- e) in
    let p := Z.max 0 (64 + Z.log2 d - Z.log2 m) in
    let n := m * 2 ^ p in
    let r := n mod d in
    let loc := if r =? 0 then loc_Exact else loc_Inexact (2 * r ?= d) in
    binary_round_aux prec emax s (n / d) (- p) loc.

Definition is_digit (c : N) : bool := ((48 <=? c) && (c <=? 57))%N.

Definition lower (c : N) : N :=
  if ((65 <=? c) && (c <=? 90))%N then (c + 32)%N else c.

(** Underscores may only stand between two digits; they are removed. *)
Fixpoint drop_underscores (prev : N) (s : pystr) : option pystr :=
  match s with
  | [] => if (prev =? 95)%N then None else Some []
  | c :: r =>
      if (c =? 95)%N then
        if is_digit prev then drop_underscores c r else None
      else if (prev =? 95)%N && negb (is_digit c) then None
      else option_map (cons c) (drop_underscores c r)
  end.

Fixpoint span_digits (s : pystr) : pystr * pystr :=
  match s with
  | c :: r =>
      if is_digit c then let '(ds, rest) := span_digits r in (c :: ds, rest)
      else ([], s)
  | [] => ([], [])
  end.

Definition digits_value (ds : pystr) : Z :=
  fold_left (fun acc c => 10 * acc + (Z.of_N c - 48)) ds 0.

Definition take_sign (s : pystr) : bool * pystr :=
  match s with
  | 45%N :: r => (true, r)
  | 43%N :: r => (false, r)
  | _ => (false, s)
  end.

(** [e] or [E], an optional sign and at least one digit, to the end. *)
Definition exponent (s : pystr) : option Z :=
  match s with
  | [] => Some 0
  | c :: r =>
      if (lower c =? 101)%N then
        let '(neg, r') := take_sign r in
        match span_digits r' with
        | ((_ :: _) as ds, []) => Some (cond_Zopp neg (digits_value ds))
        | _ => None
        end
      else None
  end.

Definition number (neg : bool) (s : pystr) : option spec_float :=
  let '(int_part, r) := span_digits s in
  let '(frac_part, r') :=
    match r with
    | 46%N :: r1 => span_digits r1
    | _ => ([], r)
    end in
  match int_part ++ frac_part with
  | [] => None
  | ds =>
      match exponent r' with
      | Some e =>
          Some (of_decimal neg (digits_value ds)
                  (e - Z.of_nat (List.length frac_part)))
      | None => None
      end
  end.

(** The blanks [float()] skips around the number: those of
    [str.isspace] but the separators U+001C to U+001F. *)
Definition is_blank (c : N) : bool :=
  py_isspace c && negb ((28 <=? c) && (c <=? 31))%N.

Fixpoint drop_blanks (s : pystr) : pystr :=
  match s with
  | c :: r => if is_blank c then drop_blanks r else s
  | [] => []
  end.

Definition float_of_str (s : pystr) : option spec_float :=
  match drop_underscores 0%N (rev (drop_blanks (rev (drop_blanks s)))) with
  | None => None
  | Some t =>
      let '(neg, body) := take_sign t in
      let word := map lower body in
      if pystr_eqb word (lit "inf") || pystr_eqb word (lit "infinity")
      then Some (S754_infinity neg)
      else if pystr_eqb word (lit "nan") then Some S754_nan
      else number neg body
  end.

(** The least [j >= 1] with [den <= num * 10^j], searched upwards. *)
Fixpoint first_scale (fuel : nat) (num den j : Z) : Z :=
  match fuel with
  | O => j
  | S fuel' =>
      if den <=? num * 10 ^ j then j else first_scale fuel' num den (j + 1)
  end.

(** Shortest decimal [D * 10^x] that rounds to [m * 2^e], trying
    [n], [n+1], ... significant digits below the decimal point [decpt]. *)
Fixpoint shortest (fuel : nat) (f : spec_float) (num den decpt n : Z)
  : Z * Z :=
  let x := decpt - n in
  let a := if 0 <=? x then num else num * 10 ^ (- x) in
  let b := if 0 <=? x then den * 10 ^ x else den in
  let lo := a / b in
  let r := a mod b in
  let back D := SFeqb (of_decimal false D x) f in
  match fuel with
  | O => (lo, x)
  | S fuel' =>
      if r =? 0 then (lo, x)
      else
        match back lo, back (lo + 1) with
        | true, true => (if 2 * r <? b then lo else lo + 1, x)
        | true, false => (lo, x)
        | false, true => (lo + 1, x)
        | false, false => shortest fuel' f num den decpt (n + 1)
        end
  end.

Fixpoint strip_zeros_rev (s : pystr) : pystr :=
  match s with
  | 48%N :: r => strip_zeros_rev r
  | _ => s
  end.

Definition zeros (n : Z) : pystr := repeat 48%N (Z.to_nat n).

(** Layout of [repr]: digits [ds] with the decimal point after the
    first [decpt] of them; exponent form outside [-4 < decpt <= 16]. *)
Definition layout (ds : pystr) (decpt : Z) : pystr :=
  let len := Z.of_nat (List.length ds) in
  if (decpt <=? -4) || (16 <? decpt) then
    let ex := decpt - 1 in
    let exs := int_str (Z.abs ex) in
    firstn 1 ds
    ++ match skipn 1 ds with [] => [] | rest => lit "." ++ rest end
    ++ lit "e" ++ (if ex <? 0 then lit "-" else lit "+")
    ++ (if Z.abs ex <? 10 then lit "0" else []) ++ exs
  else if decpt <=? 0 then lit "0." ++ zeros (- decpt) ++ ds
  else if len <=? decpt then ds ++ zeros (decpt - len) ++ lit ".0"
  else firstn (Z.to_nat decpt) ds ++ lit "." ++ skipn (Z.to_nat decpt) ds.

Definition float_repr (f : spec_float) : pystr :=
  match f with
  | S754_nan => lit "nan"
  | S754_infinity s => if s then lit "-inf" else lit "inf"
  | S754_zero s => if s then lit "-0.0" else lit "0.0"
  | S754_finite s m e =>
      let num := if 0 <=? e then Zpos m * 2 ^ e else Zpos m in
      let den := if 0 <=? e then 1 else 2 ^ (- e) in
      let decpt :=
        if den <=? num then ndigits (num / den)
        else 1 - first_scale 400 num den 1 in
      let '(D, x) := shortest 17 (S754_finite false m e) num den decpt 1 in
      let all := int_str D in
      let ds := rev (strip_zeros_rev (rev all)) in
      (if s then lit "-" else [])
      ++ layout ds (x + Z.of_nat (List.length all))
  end.

Definition hex_digit (n : N) : N :=
  if (n <? 10)%N then (48 + n)%N else (87 + n)%N.

Definition contains (c : N) (s : pystr) : bool := existsb (N.eqb c) s.

(** [repr] of a [str]: single quotes unless the text has a single and
    no double quote; backslash escapes for the quote, the backslash and
    the characters that are not printable. *)
Definition str_repr (s : pystr) : pystr :=
  let quote : N :=
    if contains 39%N s && negb (contains 34%N s) then 34%N else 39%N in
  let esc (c : N) : pystr :=
    if (c =? quote)%N || (c =? 92)%N then [92%N; c]
    else if (c =? 9)%N then lit "\t"
    else if (c =? 10)%N then lit "\n"
    else if (c =? 13)%N then lit "\r"
    else if (c <? 32)%N || (127 <=? c)%N && (c <=? 160)%N || (c =? 173)%N then
      lit "\x" ++ [hex_digit (c / 16)%N; hex_digit (c mod 16)%N]
    else [c] in
  [quote] ++ flat_map esc s ++ [quote].

#[export] Instance runtime : PyRuntime :=
  Build_PyRuntime spec_float float_bool float_repr float_of_int float_of_str
    (SFcompare) float_cmp_int float_succ str_repr.

End Binary64.

(** ** Notions used in the statements *)

Section Notions.
Context {R : PyRuntime}.

(** The collection [load_data] hands back for a state of the file. *)
Definition collection (f : file_state) : pyval :=
  match f with
  | Holds v => v
  | _ => PList []
  end.

Definition unreadable (f : file_state) : bool :=
  match f with
  | Holds _ => false
  | _ => true
  end.

(** The record [sanitize] builds from the body [d], the coerced value
    and the two clock readings. *)
Definition sanitized_record (d : dict) (value : pyval) (t t' : pystr) : dict :=
  [(lit "title", stripped d (lit "title"));
   (lit "description", optional_stripped d (lit "description"));
   (lit "category", stripped d (lit "category"));
   (lit "value", value);
   (lit "memo", optional_stripped d (lit "memo"));
   (lit "timestamp", dget d (lit "timestamp") (PStr t));
   (lit "received_at", PStr t')].

(** The keys of the request body the handler reads. *)
Definition input_fields : list pystr :=
  [lit "title"; lit "description"; lit "category"; lit "value"; lit "memo";
   lit "timestamp"].

(** The keys of a persisted record, in the order of insertion. *)
Definition record_keys : list pystr :=
  [lit "title"; lit "description"; lit "category"; lit "value"; lit "memo";
   lit "timestamp"; lit "received_at"; lit "id"].

(** The integer id [get_next_id] reads off a stored record (0 when the
    record has none). *)
Definition int_id (item : pyval) : option Z :=
  match item with
  | PDict d =>
      match dget d (lit "id") (PInt 0) with
      | PInt z => Some z
      | _ => None
      end
  | _ => None
  end.

Fixpoint int_ids (items : list pyval) : option (list Z) :=
  match items with
  | [] => Some []
  | item :: rest =>
      match int_id item, int_ids rest with
      | Some z, Some zs => Some (z :: zs)
      | _, _ => None
      end
  end.

(** [max] of a non-empty sequence [z :: zs] of integers. *)
Definition max_of (z : Z) (zs : list Z) : Z := fold_left Z.max zs z.

(** A store whose collection is empty, before any operation. *)
Definition empty_store : world :=
  {| file := Holds (PList []); loads := 0; saves := 0; ticks := 0 |}.

Definition all_data_response (data : pyval) (count : Z) : response :=
  {| status := 200;
     body := [(lit "success", PBool true);
              (lit "count", PInt count);
              (lit "data", data)] |}.

Definition storage_error : response :=
  error_response 500 (lit "Failed to save data").

(** The 201 answer carrying the assigned id. *)
Definition created (id : pyval) : response :=
  {| status := 201;
     body := [(lit "success", PBool true);
              (lit "id", id);
              (lit "message", PStr (lit "Data received successfully"))] |}.

(** The id [get_next_id] derives from a loaded collection. *)
Definition next_id (data : pyval) : exn + pyval :=
  if negb (py_truth data) then inr (PInt 1)
  else ebind (max_id data) py_add1.

(** Request bodies used below. *)

Definition body_simple : dict :=
  [(lit "title", PStr (lit "A")); (lit "category", PStr (lit "B"))].

(** [{"title": "   ", "category": "x"}] *)
Definition body_blank_title : dict :=
  [(lit "title", PStr (lit "   ")); (lit "category", PStr (lit "x"))].

(** [{"title": "x", "category": "   "}] *)
Definition body_blank_category : dict :=
  [(lit "title", PStr (lit "x")); (lit "category", PStr (lit "   "))].

(** [{"title": "A", "category": "B", "description": "  ", "memo": " "}] *)
Definition body_blank_optional : dict :=
  [(lit "title", PStr (lit "A")); (lit "category", PStr (lit "B"));
   (lit "description", PStr (lit "  ")); (lit "memo", PStr (lit " "))].

(** [{"title": "A", "category": "B", "value": []}] *)
Definition body_list_value : dict :=
  [(lit "title", PStr (lit "A")); (lit "category", PStr (lit "B"));
   (lit "value", PList [])].

(** [{"memo": "x"}] *)
Definition body_memo_only : dict := [(lit "memo", PStr (lit "x"))].

(** [{"title": 0, "category": "x"}] *)
Definition body_zero_title : dict :=
  [(lit "title", PInt 0); (lit "category", PStr (lit "x"))].

(** [{"title": "A", "category": "B", "value": "2.5"}] *)
Definition body_with_value : dict :=
  [(lit "title", PStr (lit "A")); (lit "category", PStr (lit "B"));
   (lit "value", PStr (lit "2.5"))].

(** [body_simple] with a client-supplied [received_at]. *)
Definition body_received_at (t : pystr) : dict :=
  body_simple ++ [(lit "received_at", PStr t)].

(** [body_simple] with a key the handler does not know. *)
Definition body_extra_key : dict :=
  body_simple ++ [(lit "is_admin", PBool true)].

(** The data file is absent. *)
Definition missing_store : world :=
  {| file := Missing; loads := 0; saves := 0; ticks := 0 |}.

(** The id of a stored record that carries an integer [id]. *)
Definition explicit_id (item : pyval) : option Z :=
  match item with
  | PDict d =>
      match dict_get d (lit "id") with
      | Some (PInt z) => Some z
      | _ => None
      end
  | _ => None
  end.

Fixpoint explicit_ids (items : list pyval) : option (list Z) :=
  match items with
  | [] => Some []
  | item :: rest =>
      match explicit_id item, explicit_ids rest with
      | Some z, Some zs => Some (z :: zs)
      | _, _ => None
      end
  end.

(** The first record whose integer id is [data_id]. *)
Fixpoint first_match (data_id : Z) (items : list pyval) : option pyval :=
  match items with
  | [] => None
  | item :: rest =>
      match explicit_id item with
      | Some z => if z =? data_id then Some item else first_match data_id rest
      | None => first_match data_id rest
      end
  end.

Definition found_response (item : pyval) : response :=
  {| status := 200;
     body := [(lit "success", PBool true); (lit "data", item)] |}.

(** A string with no blank at either end. *)
Definition is_trimmed (s : pystr) : bool :=
  match s with
  | [] => true
  | c :: _ => negb (py_isspace c) && negb (py_isspace (last s c))
  end.

Definition trimmed_str (v : pyval) : bool :=
  match v with
  | PStr s => is_trimmed s
  | _ => false
  end.

Definition trimmed_str_or_none (v : pyval) : bool :=
  match v with
  | PNone => true
  | _ => trimmed_str v
  end.

Definition float_or_none (v : pyval) : bool :=
  match v with
  | PNone | PFloat _ => true
  | _ => false
  end.

Definition is_str (v : pyval) : bool :=
  match v with
  | PStr _ => true
  | _ => false
  end.

(** The types of the fields of a record written by [submit_data]. *)
Definition well_shaped (rec : dict) : bool :=
  trimmed_str (dget rec (lit "title") PNone)
  && trimmed_str_or_none (dget rec (lit "description") PNone)
  && trimmed_str (dget rec (lit "category") PNone)
  && float_or_none (dget rec (lit "value") PNone)
  && trimmed_str_or_none (dget rec (lit "memo") PNone)
  && is_str (dget rec (lit "received_at") PNone).

(** Values [len()] does not apply to. *)
Definition unsized (v : pyval) : bool :=
  match v with
  | PList _ | PDict _ | PStr _ => false
  | _ => true
  end.

(** [{"title": "A", "category": "B", "value": "abc"}] *)
Definition body_bad_value : dict :=
  [(lit "title", PStr (lit "A")); (lit "category", PStr (lit "B"));
   (lit "value", PStr (lit "abc"))].

(** [{"category": "x", "value": "abc"}] *)
Definition body_no_title_bad_value : dict :=
  [(lit "category", PStr (lit "x")); (lit "value", PStr (lit "abc"))].

(** [{"title": " A ", "category": "B", "timestamp": null, "value": 0}] *)
Definition body_null_timestamp : dict :=
  [(lit "title", PStr (lit " A ")); (lit "category", PStr (lit "B"));
   (lit "timestamp", PNone); (lit "value", PInt 0)].

(** A data file holding two records, ids 3 and 7. *)
Definition two_records : list pyval :=
  [PDict [(lit "title", PStr (lit "old")); (lit "id", PInt 3)];
   PDict [(lit "title", PStr (lit "older")); (lit "id", PInt 7)]].

(** The record a request with body [d] adds to the file, and the world
    it leaves: two clock readings, two loads, one write. *)
Definition new_record (clock : nat -> pystr) (d : dict) (v : pyval)
    (w : world) (id : pyval) : dict :=
  dict_set (sanitized_record d v (clock (ticks w)) (clock (S (ticks w))))
    (lit "id") id.

Definition after_submit (w : world) (all_data : pyval) : world :=
  count_save (Holds all_data) (count_load (count_load (tick (tick w)))).

Definition store_of (v : pyval) : world :=
  {| file := Holds v; loads := 0; saves := 0; ticks := 0 |}.

Definition corrupt_store : world :=
  {| file := Corrupt (lit "Expecting value: line 1 column 1 (char 0)");
     loads := 0; saves := 0; ticks := 0 |}.

End Notions.

(** Concrete requests and environments. *)

Definition always_ok (n : nat) : write_outcome := WriteOk.

Definition never_opens (n : nat) : write_outcome :=
  WriteOpenFails.

Definition sample_clock (n : nat) : pystr :=
  lit "2024-05-01T10:00:0" ++ int_str (Z.of_nat n).

(** ** Properties *)

Section Properties.
Context {R : PyRuntime}.
Variable clock : nat -> pystr.
Variable disk : nat -> write_outcome.

Lemma pystr_eqb_eq (a b : pystr) : pystr_eqb a b = true <-> a = b.
Proof.
  revert b; induction a as [|x a IH]; intros [|y b]; simpl;
    try (split; [discriminate | discriminate]); try tauto.
  rewrite andb_true_iff, N.eqb_eq, IH.
  split; [intros [-> ->]; reflexivity | intros H; inversion H; auto].
Qed.

Lemma pystr_eqb_refl (a : pystr) : pystr_eqb a a = true.
Proof. apply pystr_eqb_eq; reflexivity. Qed.

Lemma dict_get_remove (d : dict) (k k' : pystr) :
  dict_get (dict_remove d k) k' =
  if pystr_eqb k k' then None else dict_get d k'.
Proof.
  induction d as [|[k0 v] d IH]; simpl.
  - destruct (pystr_eqb k k'); reflexivity.
  - destruct (pystr_eqb k0 k) eqn:E0.
    + apply pystr_eqb_eq in E0; subst k0.
      rewrite IH. destruct (pystr_eqb k k'); reflexivity.
    + simpl. rewrite IH.
      destruct (pystr_eqb k0 k') eqn:E1; [|reflexivity].
      apply pystr_eqb_eq in E1; subst k0.
      destruct (pystr_eqb k k') eqn:E2; [|reflexivity].
      apply pystr_eqb_eq in E2; subst k'.
      rewrite pystr_eqb_refl in E0; discriminate.
Qed.

(** [load_data] catches whatever the read raises. *)
Lemma load_data_run (w : world) :
  load_data w = (inr (collection (file w)), count_load w).
Proof.
  unfold load_data, try_except, read_json.
  destruct (file w); reflexivity.
Qed.

(** The initialisation leaves an existing file alone and is idempotent. *)
Lemma startup_idempotent (w : world) :
  startup (startup w) = startup w
  /\ (file w = Missing -> collection (file (startup w)) = PList [])
  /\ (file w <> Missing -> startup w = w).
Proof.
  unfold startup. destruct w as [f l sv t]; simpl.
  destruct f; simpl; repeat split; congruence.
Qed.

(** Requests whose body is a dict lacking a truthy required field are
    answered from the validation half alone. *)
Lemma submit_missing (d : dict) (w : world) :
  d <> [] -> missing_fields d <> [] ->
  submit_data clock disk (Json (PDict d)) w =
  (missing_fields_response (missing_fields d), w).
Proof.
  intros Hd Hm.
  unfold submit_data, handle, submit_try, validate, bind; simpl.
  destruct d as [|kv d]; [congruence|]. simpl.
  destruct (missing_fields (kv :: d)); [congruence|]. reflexivity.
Qed.

Lemma sanitize_run (d : dict) (w : world) :
  sanitize clock d w =
  match coerce_value d with
  | inl e => (inl e, w)
  | inr v =>
      (inr (sanitized_record d v (clock (ticks w)) (clock (S (ticks w)))),
       tick (tick w))
  end.
Proof.
  unfold sanitize, bind, lift, now.
  destruct (coerce_value d); reflexivity.
Qed.

Lemma validate_dict (d : dict) (w : world) :
  d <> [] -> missing_fields d = [] ->
  validate clock (Json (PDict d)) w =
  match coerce_value d with
  | inl e => (inl e, w)
  | inr v =>
      (inr (inr (sanitized_record d v (clock (ticks w)) (clock (S (ticks w))))),
       tick (tick w))
  end.
Proof.
  intros Hd Hm. unfold validate, bind; simpl.
  destruct d as [|kv d]; [congruence|]. simpl.
  rewrite Hm, sanitize_run.
  destruct (coerce_value (kv :: d)); reflexivity.
Qed.

(** What the validation half does to the world: nothing, unless it
    lets the request through, and then it only reads the clock twice. *)
Lemma validate_world (req : request) (w : world) :
  match validate clock req w with
  | (inr (inr _), w') => w' = tick (tick w)
  | (_, w') => w' = w
  end.
Proof.
  destruct req as [| |v]; try reflexivity.
  unfold validate, bind; simpl.
  destruct (py_truth v) eqn:T; simpl; [|reflexivity].
  destruct v; try reflexivity.
  destruct (missing_fields d) eqn:Hm; [|reflexivity].
  rewrite sanitize_run. destruct (coerce_value d); reflexivity.
Qed.

(** The id computed from a loaded collection. *)
Lemma get_next_id_run (w : world) :
  get_next_id w = (next_id (collection (file w)), count_load w).
Proof.
  unfold get_next_id, next_id, bind. rewrite load_data_run.
  destruct (py_truth (collection (file w))); simpl; [|reflexivity].
  unfold lift. destruct (ebind _ _); reflexivity.
Qed.

Lemma max_loop_ints (items : list pyval) :
  forall zs c, int_ids items = Some zs ->
  max_loop (PInt c) items = inr (PInt (max_of c zs)).
Proof.
  induction items as [|item items IH]; simpl; intros zs c H.
  - injection H as <-. reflexivity.
  - destruct (int_id item) as [z|] eqn:Hz; [|discriminate].
    destruct (int_ids items) as [zs'|]; [|discriminate].
    injection H as <-.
    destruct item; try discriminate. simpl in Hz.
    unfold item_id, py_get, ebind. fold (dget d (lit "id") (PInt 0)).
    destruct (dget d (lit "id") (PInt 0)); try discriminate.
    injection Hz as ->. simpl.
    unfold max_of; simpl. fold (max_of (Z.max c z) zs').
    rewrite <- (IH zs' (Z.max c z) eq_refl). f_equal.
    unfold Z.max. rewrite (Z.compare_antisym c z).
    destruct (c ?= z); reflexivity.
Qed.

Lemma max_id_ints (items : list pyval) (z : Z) (zs : list Z) :
  int_ids items = Some (z :: zs) ->
  max_id (PList items) = inr (PInt (max_of z zs)).
Proof.
  destruct items as [|item items]; simpl; [discriminate|]. intros H.
  destruct (int_id item) as [z0|] eqn:Hz; [|discriminate].
  destruct (int_ids items) as [zs'|] eqn:Hzs; [|discriminate].
  injection H as -> ->.
  destruct item; try discriminate. simpl in Hz.
  unfold max_id, ebind; simpl. fold (dget d (lit "id") (PInt 0)).
  destruct (dget d (lit "id") (PInt 0)); try discriminate.
  injection Hz as ->. apply max_loop_ints, Hzs.
Qed.

Lemma get_next_id_ints (w : world) (items : list pyval) (z : Z) (zs : list Z) :
  file w = Holds (PList items) -> int_ids items = Some (z :: zs) ->
  get_next_id w = (inr (PInt (max_of z zs + 1)), count_load w).
Proof.
  intros Hf Hi. rewrite get_next_id_run, Hf. unfold next_id, collection.
  destruct items as [|item items]; [discriminate|].
  change (py_truth (PList (item :: items))) with true. cbv beta iota delta [negb].
  rewrite (max_id_ints _ _ _ Hi). reflexivity.
Qed.

Lemma get_next_id_empty (w : world) :
  collection (file w) = PList [] ->
  get_next_id w = (inr (PInt 1), count_load w).
Proof. intros H. rewrite get_next_id_run, H. reflexivity. Qed.

Lemma dict_get_set_same (d : dict) (k : pystr) (v : pyval) :
  dict_get (dict_set d k v) k = Some v.
Proof.
  induction d as [|[k0 v0] d IH]; simpl.
  - rewrite pystr_eqb_refl; reflexivity.
  - destruct (pystr_eqb k0 k) eqn:E; simpl; rewrite E; auto.
Qed.

(** The persistence half, step by step: two loads, then one write
    whose fate the disk decides. *)
Lemma persist_run (rec : dict) (w : world) :
  persist disk rec w =
  match next_id (collection (file w)) with
  | inl e => (inl e, count_load w)
  | inr id =>
      let w2 := count_load (count_load w) in
      match py_append (collection (file w))
              (PDict (dict_set rec (lit "id") id)) with
      | inl e => (inl e, w2)
      | inr all_data =>
          match disk (saves w) with
          | WriteOk => (inr (created id), count_save (Holds all_data) w2)
          | WriteOpenFails => (inr storage_error, count_save (file w) w2)
          | WriteDumpFails msg =>
              (inr storage_error, count_save (Corrupt msg) w2)
          end
      end
  end.
Proof.
  unfold persist, bind. rewrite get_next_id_run.
  destruct (next_id (collection (file w))) as [e|id]; [reflexivity|].
  rewrite load_data_run. simpl.
  destruct (py_append _ _) as [e|all_data]; simpl; [reflexivity|].
  unfold save_data, try_except, bind, write_json; simpl.
  destruct (disk (saves w)); simpl; try reflexivity.
  unfold created, dget. rewrite dict_get_set_same. reflexivity.
Qed.

Lemma submit_try_run (req : request) (w : world) :
  submit_try clock disk req w =
  match validate clock req w with
  | (inl e, w1) => (inl e, w1)
  | (inr (inl early), w1) => (inr early, w1)
  | (inr (inr rec), w1) => persist disk rec w1
  end.
Proof.
  unfold submit_try, bind.
  destruct (validate clock req w) as [[e|[early|rec]] w1]; reflexivity.
Qed.

(** Inversion of a successful validation. *)
Lemma validate_passed (req : request) (w w1 : world) (rec : dict) :
  validate clock req w = (inr (inr rec), w1) ->
  exists d v,
    req = Json (PDict d) /\ d <> [] /\ missing_fields d = []
    /\ coerce_value d = inr v
    /\ rec = sanitized_record d v (clock (ticks w)) (clock (S (ticks w)))
    /\ w1 = tick (tick w).
Proof.
  destruct req as [| |data]; try discriminate.
  unfold validate, bind; simpl.
  destruct (py_truth data) eqn:T; simpl; [|discriminate].
  destruct data; try discriminate.
  destruct (missing_fields d) eqn:Hm; [|discriminate].
  rewrite sanitize_run.
  destruct (coerce_value d) as [e|v] eqn:Hv; [discriminate|].
  intros H; injection H as <- <-.
  exists d, v. repeat split; auto.
  intros ->; discriminate.
Qed.

(** An early [return] of the validation half is a 400. *)
Lemma validate_early (req : request) (w w1 : world) (r : response) :
  validate clock req w = (inr (inl r), w1) -> status r = 400 /\ w1 = w.
Proof.
  destruct req as [| |data]; simpl.
  - intros H; injection H as <- <-; auto.
  - discriminate.
  - unfold validate, bind; simpl.
    destruct (py_truth data) eqn:T; simpl.
    + destruct data; try discriminate.
      destruct (missing_fields d) eqn:Hm.
      * rewrite sanitize_run. destruct (coerce_value d); discriminate.
      * intros H; injection H as <- <-; auto.
    + intros H; injection H as <- <-; auto.
Qed.

Lemma validate_raised (req : request) (w w1 : world) (e : exn) :
  validate clock req w = (inl e, w1) -> w1 = w.
Proof.
  intros H. generalize (validate_world req w). rewrite H. auto.
Qed.

(** A request whose body is a non-empty dict, through both halves. *)
Lemma submit_dict_run (d : dict) (w : world) :
  d <> [] ->
  submit_data clock disk (Json (PDict d)) w =
  match missing_fields d with
  | _ :: _ => (missing_fields_response (missing_fields d), w)
  | [] =>
      match coerce_value d with
      | inl e => handle (inl e, w)
      | inr v =>
          handle (persist disk
                    (sanitized_record d v (clock (ticks w)) (clock (S (ticks w))))
                    (tick (tick w)))
      end
  end.
Proof.
  intros Hd. destruct (missing_fields d) eqn:Hm.
  - unfold submit_data. rewrite submit_try_run, (validate_dict d w Hd Hm).
    destruct (coerce_value d); reflexivity.
  - rewrite <- Hm. apply submit_missing; [assumption|]. rewrite Hm; discriminate.
Qed.

Lemma submit_empty_dict (w : world) :
  submit_data clock disk (Json (PDict [])) w =
  (error_response 400 (lit "Empty request body"), w).
Proof. reflexivity. Qed.

(** Answers made by the two [except] clauses. *)
Lemma handle_raised (e : exn) (w : world) :
  snd (handle (inl e, w)) = w
  /\ (status (fst (handle (inl e, w))) = 400
      \/ fst (handle (inl e, w)) = error_response 500 (lit "Internal server error")).
Proof. destruct e; simpl; auto. Qed.

Lemma internal_error_not_storage_error :
  error_response 500 (lit "Internal server error") <> storage_error.
Proof. intros E. vm_compute in E. discriminate E. Qed.

Lemma handle_raised_not_storage_error (e : exn) (w : world) :
  fst (handle (inl e, w)) <> storage_error.
Proof.
  destruct (handle_raised e w) as [_ [H|H]]; intros E; rewrite E in H.
  - discriminate H.
  - symmetry in H. exact (internal_error_not_storage_error H).
Qed.

Lemma handle_raised_not_created (e : exn) (w : world) :
  status (fst (handle (inl e, w))) <> 201.
Proof.
  destruct (handle_raised e w) as [_ [H|H]]; rewrite H; discriminate.
Qed.

(** The handler reads the body through [input_fields] only. *)
Lemma agree_dget (d1 d2 : dict) (k : pystr) (x : pyval) :
  (forall k, In k input_fields -> dict_get d1 k = dict_get d2 k) ->
  In k input_fields -> dget d1 k x = dget d2 k x.
Proof. intros H Hk. unfold dget. rewrite (H k Hk). reflexivity. Qed.

Lemma agree_missing_fields (d1 d2 : dict) :
  (forall k, In k input_fields -> dict_get d1 k = dict_get d2 k) ->
  missing_fields d1 = missing_fields d2.
Proof.
  intros H. unfold missing_fields, required_fields. simpl.
  rewrite !(agree_dget d1 d2 _ _ H) by (simpl; tauto). reflexivity.
Qed.

Lemma agree_coerce_value (d1 d2 : dict) :
  (forall k, In k input_fields -> dict_get d1 k = dict_get d2 k) ->
  coerce_value d1 = coerce_value d2.
Proof.
  intros H. unfold coerce_value.
  rewrite (agree_dget d1 d2 _ _ H) by (simpl; tauto). reflexivity.
Qed.

Lemma agree_sanitized_record (d1 d2 : dict) (v : pyval) (t t' : pystr) :
  (forall k, In k input_fields -> dict_get d1 k = dict_get d2 k) ->
  sanitized_record d1 v t t' = sanitized_record d2 v t t'.
Proof.
  intros H. unfold sanitized_record, optional_stripped, stripped.
  rewrite !(agree_dget d1 d2 _ _ H) by (simpl; tauto). reflexivity.
Qed.

Lemma agree_submit (d1 d2 : dict) (w : world) :
  (forall k, In k input_fields -> dict_get d1 k = dict_get d2 k) ->
  d1 <> [] -> d2 <> [] ->
  submit_data clock disk (Json (PDict d1)) w =
  submit_data clock disk (Json (PDict d2)) w.
Proof.
  intros H H1 H2. rewrite !submit_dict_run by assumption.
  rewrite (agree_missing_fields d1 d2 H), (agree_coerce_value d1 d2 H).
  destruct (missing_fields d2); [|reflexivity].
  destruct (coerce_value d2); [reflexivity|].
  rewrite (agree_sanitized_record d1 d2 _ _ _ H). reflexivity.
Qed.

Lemma agree_submit_world (d1 d2 : dict) (w : world) :
  (forall k, In k input_fields -> dict_get d1 k = dict_get d2 k) ->
  snd (submit_data clock disk (Json (PDict d1)) w) =
  snd (submit_data clock disk (Json (PDict d2)) w).
Proof.
  intros H.
  assert (E : forall d d' : dict,
             missing_fields d = missing_fields d' -> d = [] -> d' <> [] ->
             snd (submit_data clock disk (Json (PDict d)) w) =
             snd (submit_data clock disk (Json (PDict d')) w)).
  { intros d d' Hm -> Hd'. rewrite (submit_dict_run d' w Hd'), <- Hm.
    reflexivity. }
  destruct d1 as [|kv1 d1], d2 as [|kv2 d2].
  - reflexivity.
  - apply E; [apply agree_missing_fields, H|reflexivity|discriminate].
  - symmetry. apply E; [symmetry; apply agree_missing_fields, H|reflexivity|discriminate].
  - f_equal. apply agree_submit; [exact H|discriminate|discriminate].
Qed.

(** *** Store: reads never fail *)

(** C7. [load_data] never raises: it always returns a value, and when
    the file is missing or does not parse that value is the empty list;
    [get_all_data] then answers 200 with count 0 and no record, and
    [get_data_by_id] answers 404 as on an empty collection. *)
Theorem load_data_never_raises :
  (forall w, exists v, load_data w = (inr v, count_load w))
  /\ (forall w, unreadable (file w) = true ->
        load_data w = (inr (PList []), count_load w)
        /\ get_all_data w = (all_data_response (PList []) 0, count_load w)
        /\ forall data_id,
             get_data_by_id data_id w =
             (error_response 404 (lit "Data not found"), count_load w)).
Proof.
  split.
  - intros w. exists (collection (file w)). apply load_data_run.
  - intros w Hw.
    assert (Hc : collection (file w) = PList [])
      by (destruct (file w); [reflexivity|reflexivity|discriminate]).
    repeat split.
    + rewrite load_data_run, Hc. reflexivity.
    + unfold get_all_data, bind. rewrite load_data_run, Hc. reflexivity.
    + intros data_id. unfold get_data_by_id, bind.
      rewrite load_data_run, Hc. reflexivity.
Qed.

(** *** Required fields *)

(** C2 (amended). The empty object is answered 400 "Empty request
    body", before the required-field check; a non-empty object in which
    neither [title] nor [category] is truthy is answered 400 with both
    names in [missing_fields]. *)
Theorem empty_object_and_both_missing :
  forall w,
    submit_data clock disk (Json (PDict [])) w =
    (error_response 400 (lit "Empty request body"), w)
    /\ forall d,
         d <> [] ->
         py_truth (dget d (lit "title") PNone) = false ->
         py_truth (dget d (lit "category") PNone) = false ->
         submit_data clock disk (Json (PDict d)) w =
         (missing_fields_response [lit "title"; lit "category"], w).
Proof.
  intros w. split; [reflexivity|].
  intros d Hd Ht Hc.
  assert (Hm : missing_fields d = [lit "title"; lit "category"]).
  { unfold missing_fields, required_fields. simpl. rewrite Ht, Hc. reflexivity. }
  rewrite <- Hm. apply submit_missing; [assumption|].
  rewrite Hm; discriminate.
Qed.

(** C10. A required field bound to a falsy value is reported in
    [missing_fields]; the list is the one computed for the body without
    that key. *)
Theorem falsy_required_field_is_missing :
  forall d field v w,
    In field required_fields ->
    dict_get d field = Some v ->
    py_truth v = false ->
    submit_data clock disk (Json (PDict d)) w =
    (missing_fields_response (missing_fields d), w)
    /\ In field (missing_fields d)
    /\ missing_fields d = missing_fields (dict_remove d field).
Proof.
  intros d field v w Hin Hget Hv.
  assert (Hmem : In field (missing_fields d)).
  { unfold missing_fields. apply filter_In. split; [assumption|].
    unfold dget. rewrite Hget, Hv. reflexivity. }
  repeat split.
  - apply submit_missing.
    + intros ->; discriminate.
    + intros E; rewrite E in Hmem; exact Hmem.
  - assumption.
  - unfold missing_fields. apply filter_ext_in. intros k Hk.
    unfold dget. rewrite dict_get_remove.
    destruct (pystr_eqb field k) eqn:E; [|reflexivity].
    apply pystr_eqb_eq in E; subst k. rewrite Hget, Hv. reflexivity.
Qed.

(** *** Blank strings *)

(** An optional field that is absent or falsy is stored as None. *)
Lemma falsy_optional_is_none (d : dict) (k : pystr) :
  py_truth (dget d k PNone) = false -> optional_stripped d k = PNone.
Proof. intros H. unfold optional_stripped. rewrite H. reflexivity. Qed.

(** A non-empty string of blanks is truthy: it is not reported missing,
    and it is stored stripped, that is, as the empty string. *)
Lemma blank_string_is_stored_empty (d : dict) (k : pystr) (s : pystr) :
  dict_get d k = Some (PStr s) -> s <> [] -> strip s = [] ->
  ~ In k (missing_fields d)
  /\ stripped d k = PStr []
  /\ optional_stripped d k = PStr [].
Proof.
  intros Hk Hs Hb.
  assert (Ht : py_truth (dget d k PNone) = true).
  { unfold dget. rewrite Hk. destruct s; [congruence|reflexivity]. }
  assert (Hv : stripped d k = PStr []).
  { unfold stripped, dget. rewrite Hk. simpl. rewrite Hb. reflexivity. }
  repeat split.
  - unfold missing_fields. rewrite filter_In, Ht. intros [_ H]. discriminate H.
  - exact Hv.
  - unfold optional_stripped. rewrite Ht. exact Hv.
Qed.

(** C1. A title or a category made of blanks passes the required-field
    check, which tests the value before it is stripped: the request is
    answered 201 and a record with the empty string is written. *)
Theorem blank_required_field_is_persisted :
  submit_data clock always_ok (Json (PDict body_blank_title)) empty_store =
  (created (PInt 1),
   {| file :=
        Holds (PList [PDict [(lit "title", PStr []);
                             (lit "description", PNone);
                             (lit "category", PStr (lit "x"));
                             (lit "value", PNone);
                             (lit "memo", PNone);
                             (lit "timestamp", PStr (clock 0%nat));
                             (lit "received_at", PStr (clock 1%nat));
                             (lit "id", PInt 1)]]);
      loads := 2; saves := 1; ticks := 2 |})
  /\ submit_data clock always_ok (Json (PDict body_blank_category)) empty_store =
     (created (PInt 1),
      {| file :=
           Holds (PList [PDict [(lit "title", PStr (lit "x"));
                                (lit "description", PNone);
                                (lit "category", PStr []);
                                (lit "value", PNone);
                                (lit "memo", PNone);
                                (lit "timestamp", PStr (clock 0%nat));
                                (lit "received_at", PStr (clock 1%nat));
                                (lit "id", PInt 1)]]);
         loads := 2; saves := 1; ticks := 2 |}).
Proof. split; reflexivity. Qed.

(** C3. A description or a memo made of blanks is truthy, so it is
    stripped and stored as the empty string, not as None. *)
Theorem blank_optional_field_is_persisted :
  submit_data clock always_ok (Json (PDict body_blank_optional)) empty_store =
  (created (PInt 1),
   {| file :=
        Holds (PList [PDict [(lit "title", PStr (lit "A"));
                             (lit "description", PStr []);
                             (lit "category", PStr (lit "B"));
                             (lit "value", PNone);
                             (lit "memo", PStr []);
                             (lit "timestamp", PStr (clock 0%nat));
                             (lit "received_at", PStr (clock 1%nat));
                             (lit "id", PInt 1)]]);
      loads := 2; saves := 1; ticks := 2 |}).
Proof. reflexivity. Qed.

(** *** Value coercion *)

(** A [value] that is a string [float()] does not read is answered 400
    with the message of the ValueError, which quotes the string. *)
Lemma unreadable_number_is_rejected (d : dict) (s : pystr) (w : world) :
  missing_fields d = [] ->
  dict_get d (lit "value") = Some (PStr s) ->
  float_of_str s = None ->
  submit_data clock disk (Json (PDict d)) w =
  (error_response 400
     (lit "Validation error: could not convert string to float: "
      ++ str_repr s), w).
Proof.
  intros Hm Hv Hf.
  rewrite submit_dict_run by (intros ->; discriminate).
  rewrite Hm. unfold coerce_value, dget. rewrite Hv. simpl. rewrite Hf.
  reflexivity.
Qed.

(** C4. A [value] that is a list makes [float()] raise TypeError, which
    only the [except Exception] clause catches: the answer is 500
    "Internal server error", not a 400; nothing is written. *)
Theorem list_value_is_internal_error :
  forall w,
    submit_data clock disk (Json (PDict body_list_value)) w =
    (error_response 500 (lit "Internal server error"), w).
Proof. intros w. reflexivity. Qed.

(** *** The two halves of a submission *)

Lemma created_not_storage_error (id : pyval) : created id <> storage_error.
Proof. intros E. discriminate E. Qed.

(** Every way the persistence half can end. *)
Lemma persist_outcome (rec : dict) (w : world) :
  (file (snd (handle (persist disk rec w))) = file w
   /\ saves (snd (handle (persist disk rec w))) = saves w
   /\ fst (handle (persist disk rec w)) <> storage_error
   /\ status (fst (handle (persist disk rec w))) <> 201)
  \/ exists items id,
       collection (file w) = PList items
       /\ next_id (PList items) = inr id
       /\ ((disk (saves w) = WriteOk
            /\ handle (persist disk rec w) =
               (created id,
                count_save
                  (Holds (PList (items ++ [PDict (dict_set rec (lit "id") id)])))
                  (count_load (count_load w))))
           \/ (disk (saves w) <> WriteOk
               /\ fst (handle (persist disk rec w)) = storage_error
               /\ saves (snd (handle (persist disk rec w))) = S (saves w)
               /\ (file (snd (handle (persist disk rec w))) = file w
                   \/ exists msg,
                        file (snd (handle (persist disk rec w))) = Corrupt msg))).
Proof.
  rewrite persist_run.
  destruct (next_id (collection (file w))) as [e|id] eqn:Hid.
  - left. destruct (handle_raised e (count_load w)) as [Hw _].
    rewrite Hw. repeat split.
    + apply handle_raised_not_storage_error.
    + apply handle_raised_not_created.
  - cbv zeta. destruct (collection (file w)) as [| | | | |items|] eqn:Hc;
      try (left; simpl; repeat split;
           [apply internal_error_not_storage_error | discriminate]).
    right. exists items, id. repeat split; [assumption|]. simpl.
    destruct (disk (saves w)) eqn:Hd.
    + left. split; reflexivity.
    + right. repeat split; [discriminate|]. left. reflexivity.
    + right. repeat split; [discriminate|]. right. exists msg. reflexivity.
Qed.

Lemma passes_validation_true (req : request) (w : world) :
  passes_validation clock req w = true ->
  exists d v,
    req = Json (PDict d) /\ d <> [] /\ missing_fields d = []
    /\ coerce_value d = inr v
    /\ submit_data clock disk req w =
       handle (persist disk
                 (sanitized_record d v (clock (ticks w)) (clock (S (ticks w))))
                 (tick (tick w))).
Proof.
  unfold passes_validation. intros H.
  destruct (validate clock req w) as [[e|[early|rec]] w1] eqn:V;
    try discriminate H.
  destruct (validate_passed _ _ _ _ V) as (d & v & -> & Hd & Hm & Hv & -> & ->).
  exists d, v. repeat split; try assumption.
  rewrite submit_dict_run, Hm, Hv by assumption. reflexivity.
Qed.

Lemma passes_validation_false (req : request) (w : world) :
  passes_validation clock req w = false ->
  snd (submit_data clock disk req w) = w
  /\ fst (submit_data clock disk req w) <> storage_error
  /\ status (fst (submit_data clock disk req w)) <> 201.
Proof.
  unfold passes_validation, submit_data. intros H. rewrite submit_try_run.
  destruct (validate clock req w) as [[e|[early|rec]] w1] eqn:V;
    try discriminate H.
  - apply validate_raised in V; subst w1.
    destruct (handle_raised e w) as [Hw _]. repeat split.
    + exact Hw.
    + apply handle_raised_not_storage_error.
    + apply handle_raised_not_created.
  - apply validate_early in V. destruct V as [Hs ->]. simpl.
    repeat split.
    + intros E; rewrite E in Hs; discriminate Hs.
    + rewrite Hs; discriminate.
Qed.

(** *** Validation comes first *)

(** What it takes to pass validation: a non-empty dict, no required
    field missing, and a [value] that [float()] accepts. *)
Lemma passes_validation_iff (req : request) (w : world) :
  passes_validation clock req w = true <->
  exists d v,
    req = Json (PDict d) /\ d <> [] /\ missing_fields d = []
    /\ coerce_value d = inr v.
Proof.
  split.
  - intros P. destruct (passes_validation_true req w P)
      as (d & v & E & Hd & Hm & Hv & _).
    exists d, v. auto.
  - intros (d & v & -> & Hd & Hm & Hv). unfold passes_validation.
    rewrite (validate_dict d w Hd Hm), Hv. reflexivity.
Qed.

(** C6. A request fails validation unless its body is a non-empty dict
    with both required fields truthy and a coercible [value]; when it
    fails (early 400 or an exception), the world is left as it was: no
    load, no save, the file untouched.  The answer 500 "Failed to save
    data" is given only to a request that passed validation, when the
    write failed; the file is then as before or no longer parses, so
    the record is not in the collection. *)
Theorem validation_precedes_persistence :
  forall req w,
    (passes_validation clock req w = true <->
     exists d v,
       req = Json (PDict d) /\ d <> [] /\ missing_fields d = []
       /\ coerce_value d = inr v)
    /\ (passes_validation clock req w = false ->
        snd (submit_data clock disk req w) = w)
    /\ (fst (submit_data clock disk req w) = storage_error ->
        passes_validation clock req w = true
        /\ disk (saves w) <> WriteOk
        /\ saves (snd (submit_data clock disk req w)) = S (saves w)
        /\ (file (snd (submit_data clock disk req w)) = file w
            \/ exists msg,
                 file (snd (submit_data clock disk req w)) = Corrupt msg)).
Proof.
  intros req w. split; [apply passes_validation_iff|]. split.
  - intros H. apply (passes_validation_false req w H).
  - intros Hs.
    destruct (passes_validation clock req w) eqn:P.
    + destruct (passes_validation_true req w P)
        as (d & v & -> & Hd & Hm & Hv & Hrun).
      rewrite Hrun in Hs |- *.
      destruct (persist_outcome
                  (sanitized_record d v (clock (ticks w)) (clock (S (ticks w))))
                  (tick (tick w)))
        as [(_ & _ & Hne & _) | (items & id & _ & _ & [[_ Hok] | Hfail])].
      * contradiction.
      * rewrite Hok in Hs. simpl in Hs.
        exfalso; exact (created_not_storage_error id Hs).
      * simpl in Hfail. destruct Hfail as (Hd' & _ & Hsv & Hf).
        repeat split; assumption.
    + destruct (passes_validation_false req w P) as (_ & Hne & _).
      contradiction.
Qed.

(** *** What reaches the file *)

(** C9. Whatever the request, the file afterwards is what it was, or
    is left unparseable by a failed write, or holds the former
    collection followed by one record whose keys are exactly the eight
    of [record_keys]; and two bodies that agree on the six keys the
    handler reads are treated alike, whatever other keys they carry. *)
Theorem persisted_record_has_eight_fields :
  (forall req w,
     file (snd (submit_data clock disk req w)) = file w
     \/ (exists msg, file (snd (submit_data clock disk req w)) = Corrupt msg)
     \/ (status (fst (submit_data clock disk req w)) = 201
         /\ exists items rec,
              collection (file w) = PList items
              /\ file (snd (submit_data clock disk req w)) =
                 Holds (PList (items ++ [PDict rec]))
              /\ map fst rec = record_keys))
  /\ (forall d1 d2 w,
        d1 <> [] -> d2 <> [] ->
        (forall k, In k input_fields -> dict_get d1 k = dict_get d2 k) ->
        submit_data clock disk (Json (PDict d1)) w =
        submit_data clock disk (Json (PDict d2)) w).
Proof.
  split.
  - intros req w.
    destruct (passes_validation clock req w) eqn:P.
    + destruct (passes_validation_true req w P)
        as (d & v & -> & Hd & Hm & Hv & Hrun).
      rewrite Hrun.
      destruct (persist_outcome
                  (sanitized_record d v (clock (ticks w)) (clock (S (ticks w))))
                  (tick (tick w)))
        as [(Hf & _) | (items & id & Hc & _ & [[_ Hok] | Hfail])].
      * left. exact Hf.
      * right; right. rewrite Hok. simpl. split; [reflexivity|].
        exists items, (dict_set
                         (sanitized_record d v (clock (ticks w))
                            (clock (S (ticks w)))) (lit "id") id).
        repeat split. exact Hc.
      * destruct Hfail as (_ & _ & _ & [Hf | Hf]); [left | right; left]; exact Hf.
    + left. f_equal. apply (passes_validation_false req w P).
  - intros d1 d2 w H1 H2 H. apply agree_submit; assumption.
Qed.

(** *** The receipt time *)

(** C8. Two bodies that differ at most in the value under
    [received_at] leave the same world behind and, when neither is
    empty, get the same answer; the [received_at] of a record written
    on a 201 is the second clock reading of the request. *)
Theorem received_at_is_server_time :
  forall d1 d2 w,
    (forall k, k <> lit "received_at" -> dict_get d1 k = dict_get d2 k) ->
    snd (submit_data clock disk (Json (PDict d1)) w) =
    snd (submit_data clock disk (Json (PDict d2)) w)
    /\ (d1 <> [] -> d2 <> [] ->
        submit_data clock disk (Json (PDict d1)) w =
        submit_data clock disk (Json (PDict d2)) w)
    /\ (status (fst (submit_data clock disk (Json (PDict d1)) w)) = 201 ->
        exists items rec,
          file (snd (submit_data clock disk (Json (PDict d1)) w)) =
          Holds (PList (items ++ [PDict rec]))
          /\ dict_get rec (lit "received_at") =
             Some (PStr (clock (S (ticks w))))).
Proof.
  intros d1 d2 w H.
  assert (H' : forall k, In k input_fields -> dict_get d1 k = dict_get d2 k).
  { intros k Hk. apply H. intros ->. vm_compute in Hk.
    repeat (destruct Hk as [Hk|Hk]; [discriminate Hk|]). exact Hk. }
  split; [|split].
  - apply agree_submit_world, H'.
  - intros H1 H2. apply agree_submit; assumption.
  - intros Hs.
    destruct (passes_validation clock (Json (PDict d1)) w) eqn:P.
    + destruct (passes_validation_true _ w P)
        as (d & v & E & Hd & Hm & Hv & Hrun).
      injection E as <-. rewrite Hrun in Hs |- *.
      destruct (persist_outcome
                  (sanitized_record d1 v (clock (ticks w)) (clock (S (ticks w))))
                  (tick (tick w)))
        as [(_ & _ & _ & Hn) | (items & id & Hc & _ & [[_ Hok] | Hfail])].
      * contradiction.
      * rewrite Hok. simpl.
        exists items, (dict_set
                         (sanitized_record d1 v (clock (ticks w))
                            (clock (S (ticks w)))) (lit "id") id).
        split; reflexivity.
      * destruct Hfail as (_ & Hse & _). rewrite Hse in Hs. discriminate Hs.
    + destruct (passes_validation_false _ w P) as (_ & _ & Hn). contradiction.
Qed.

(** *** Identifiers *)

Lemma max_of_seq (n a : nat) :
  max_of (Z.of_nat a) (map Z.of_nat (seq (S a) n)) = Z.of_nat (a + n).
Proof.
  revert a; induction n as [|n IH]; intros a.
  - cbn [seq map]. unfold max_of; cbn [fold_left]. f_equal; lia.
  - cbn [seq map].
    change (max_of (Z.max (Z.of_nat a) (Z.of_nat (S a)))
              (map Z.of_nat (seq (S (S a)) n)) = Z.of_nat (a + S n)).
    replace (Z.max (Z.of_nat a) (Z.of_nat (S a))) with (Z.of_nat (S a)) by lia.
    rewrite IH. f_equal; lia.
Qed.

Lemma int_ids_nil (items : list pyval) : int_ids items = Some [] -> items = [].
Proof.
  destruct items as [|item items]; [reflexivity|]. simpl.
  destruct (int_id item); [|discriminate].
  destruct (int_ids items); discriminate.
Qed.

Lemma int_ids_snoc (items : list pyval) (zs : list Z) (x : pyval) (z : Z) :
  int_ids items = Some zs -> int_id x = Some z ->
  int_ids (items ++ [x]) = Some (zs ++ [z]).
Proof.
  revert zs; induction items as [|item items IH]; simpl; intros zs H Hx.
  - injection H as <-. rewrite Hx. reflexivity.
  - destruct (int_id item); [|discriminate].
    destruct (int_ids items) as [zs'|]; [|discriminate].
    injection H as <-. rewrite (IH zs' eq_refl Hx). reflexivity.
Qed.

Lemma int_id_of_new_record (rec : dict) (z : Z) :
  int_id (PDict (dict_set rec (lit "id") (PInt z))) = Some z.
Proof. unfold int_id, dget. rewrite dict_get_set_same. reflexivity. Qed.

(** With ids 1..k in the file, the next id is k+1. *)
Lemma next_id_after (items : list pyval) (k : nat) :
  int_ids items = Some (map Z.of_nat (seq 1 k)) ->
  next_id (PList items) = inr (PInt (Z.of_nat (S k))).
Proof.
  destruct k as [|k]; intros H.
  - apply int_ids_nil in H; subst. reflexivity.
  - cbn [seq map] in H. unfold next_id.
    destruct items as [|item items]; [discriminate|].
    change (py_truth (PList (item :: items))) with true.
    cbv beta iota delta [negb].
    rewrite (max_id_ints _ _ _ H). unfold ebind, py_add1.
    rewrite (max_of_seq k 1). do 2 f_equal. lia.
Qed.

(** One accepted submission on a file holding the ids 1..k. *)
Lemma submit_step (req : request) (w : world) (items : list pyval) (k : nat) :
  passes_validation clock req w = true ->
  file w = Holds (PList items) ->
  int_ids items = Some (map Z.of_nat (seq 1 k)) ->
  disk (saves w) = WriteOk ->
  fst (submit_data clock disk req w) = created (PInt (Z.of_nat (S k)))
  /\ exists items',
       file (snd (submit_data clock disk req w)) = Holds (PList items')
       /\ int_ids items' = Some (map Z.of_nat (seq 1 (S k))).
Proof.
  intros P Hf Hi Hd.
  destruct (passes_validation_true req w P) as (d & v & -> & _ & _ & _ & Hrun).
  rewrite Hrun.
  destruct (persist_outcome
              (sanitized_record d v (clock (ticks w)) (clock (S (ticks w))))
              (tick (tick w)))
    as [H | (items0 & id & Hc & Hid & [[_ Hok] | (Hno & _)])].
  - exfalso. revert H. rewrite persist_run. simpl. rewrite Hf, Hd. simpl.
    rewrite (next_id_after items k Hi). simpl.
    intros (_ & _ & _ & H). apply H; reflexivity.
  - simpl in Hc. rewrite Hf in Hc. simpl in Hc. injection Hc as <-.
    rewrite (next_id_after items k Hi) in Hid. injection Hid as <-.
    rewrite Hok. split; [reflexivity|].
    eexists; split; [reflexivity|].
    rewrite seq_S, map_app. cbn [map Nat.add].
    apply int_ids_snoc; [assumption | apply int_id_of_new_record].
  - simpl in Hno. contradiction.
Qed.

Lemma run_ids (reqs : list request) :
  forall (w : world) (items : list pyval) (k : nat),
    file w = Holds (PList items) ->
    int_ids items = Some (map Z.of_nat (seq 1 k)) ->
    (forall n, disk n = WriteOk) ->
    (forall req w', In req reqs -> passes_validation clock req w' = true) ->
    fst (run clock disk reqs w) =
    map (fun i => created (PInt (Z.of_nat i))) (seq (S k) (List.length reqs)).
Proof.
  induction reqs as [|req reqs IH]; intros w items k Hf Hi Hd Hv; simpl.
  - reflexivity.
  - destruct (submit_step req w items k (Hv req w (or_introl eq_refl)) Hf Hi
                (Hd (saves w))) as (Hr & items' & Hf' & Hi').
    destruct (submit_data clock disk req w) as [r w1]. simpl in Hr, Hf'.
    specialize (IH w1 items' (S k) Hf' Hi' Hd
                  (fun q w' Hq => Hv q w' (or_intror Hq))).
    destruct (run clock disk reqs w1) as [rs w2]. simpl in IH |- *.
    rewrite Hr, IH. reflexivity.
Qed.

(** C5. [get_next_id] gives 1 on an empty collection and the maximum
    of the stored ids plus 1 otherwise; accepted submissions handled
    one after the other on an empty store, every write succeeding, are
    answered with the ids 1, 2, 3, ... in order. *)
Theorem ids_are_sequential :
  (forall w,
     collection (file w) = PList [] ->
     get_next_id w = (inr (PInt 1), count_load w))
  /\ (forall w items z zs,
        file w = Holds (PList items) ->
        int_ids items = Some (z :: zs) ->
        get_next_id w = (inr (PInt (max_of z zs + 1)), count_load w))
  /\ (forall reqs w,
        file w = Holds (PList []) ->
        (forall n, disk n = WriteOk) ->
        (forall req w', In req reqs -> passes_validation clock req w' = true) ->
        fst (run clock disk reqs w) =
        map (fun i => created (PInt (Z.of_nat i))) (seq 1 (List.length reqs)))
  /\ (forall r1 r2 r3 w,
        file w = Holds (PList []) ->
        (forall n, disk n = WriteOk) ->
        (forall req w', In req [r1; r2; r3] ->
                        passes_validation clock req w' = true) ->
        fst (run clock disk [r1; r2; r3] w) =
        [created (PInt 1); created (PInt 2); created (PInt 3)]).
Proof.
  split; [exact get_next_id_empty|].
  split; [exact get_next_id_ints|].
  split.
  - intros reqs w Hf Hd Hv.
    apply (run_ids reqs w [] 0%nat Hf eq_refl Hd Hv).
  - intros r1 r2 r3 w Hf Hd Hv.
    apply (run_ids [r1; r2; r3] w [] 0%nat Hf eq_refl Hd Hv).
Qed.

End Properties.

(** ** Further properties of the handlers *)

Section MoreProperties.
Context {R : PyRuntime}.
Variable clock : nat -> pystr.
Variable disk : nat -> write_outcome.

(** *** [str.strip] *)

Lemma lstrip_head (s : pystr) (c : N) (r : pystr) :
  lstrip s = c :: r -> py_isspace c = false.
Proof.
  induction s as [|x s IH]; simpl; [discriminate|].
  destruct (py_isspace x) eqn:E; [exact IH|].
  intros H; injection H as <- _. exact E.
Qed.

Lemma lstrip_suffix (s : pystr) : exists blanks, s = blanks ++ lstrip s.
Proof.
  induction s as [|x s [b IH]]; simpl.
  - exists []. reflexivity.
  - destruct (py_isspace x).
    + exists (x :: b). simpl. f_equal. exact IH.
    + exists []. reflexivity.
Qed.

Lemma rstrip_prefix (s : pystr) : exists blanks, s = rstrip s ++ blanks.
Proof.
  unfold rstrip. destruct (lstrip_suffix (rev s)) as [b H].
  exists (rev b). rewrite <- rev_app_distr, <- H, rev_involutive. reflexivity.
Qed.

Lemma strip_is_trimmed (s : pystr) : is_trimmed (strip s) = true.
Proof.
  unfold strip. set (t := lstrip s).
  destruct (rstrip t) as [|c r] eqn:E; [reflexivity|].
  unfold is_trimmed. apply andb_true_iff. split; apply negb_true_iff.
  - destruct (rstrip_prefix t) as [b H]. rewrite E in H. simpl in H.
    apply (lstrip_head s c (r ++ b)). exact H.
  - unfold rstrip in E.
    destruct (lstrip (rev t)) as [|x u] eqn:Eu; [discriminate E|].
    simpl in E. rewrite <- E, last_last.
    apply (lstrip_head _ _ _ Eu).
Qed.

Lemma strip_trimmed (s : pystr) : is_trimmed s = true -> strip s = s.
Proof.
  destruct s as [|c r]; [reflexivity|]. unfold is_trimmed.
  rewrite andb_true_iff, !negb_true_iff. intros [Hc Hl].
  unfold strip. cbn [lstrip]. rewrite Hc. unfold rstrip.
  destruct (rev (c :: r)) as [|x u] eqn:E.
  - apply (f_equal (@rev N)) in E. rewrite rev_involutive in E. discriminate E.
  - assert (Hx : last (c :: r) c = x).
    { apply (f_equal (@rev N)) in E. rewrite rev_involutive in E. simpl in E.
      rewrite E. apply last_last. }
    rewrite Hx in Hl. cbn [lstrip]. rewrite Hl, <- E.
    apply rev_involutive.
Qed.

(** *** Accepted submissions *)

Lemma submit_accepts (d : dict) (v : pyval) (items : list pyval) (id : pyval)
    (w : world) :
  d <> [] -> missing_fields d = [] -> coerce_value d = inr v ->
  collection (file w) = PList items -> next_id (PList items) = inr id ->
  disk (saves w) = WriteOk ->
  submit_data clock disk (Json (PDict d)) w =
  (created id,
   after_submit w (PList (items ++ [PDict (new_record clock d v w id)]))).
Proof.
  intros Hd Hm Hv Hc Hid Hw.
  rewrite (submit_dict_run clock disk d w Hd), Hm, Hv, persist_run.
  change (file (tick (tick w))) with (file w).
  change (saves (tick (tick w))) with (saves w).
  rewrite Hc, Hid. simpl. rewrite Hw. reflexivity.
Qed.

Lemma created_inversion (req : request) (w : world) :
  status (fst (submit_data clock disk req w)) = 201 ->
  exists d v items id,
    req = Json (PDict d) /\ d <> [] /\ missing_fields d = []
    /\ coerce_value d = inr v
    /\ collection (file w) = PList items
    /\ next_id (PList items) = inr id
    /\ disk (saves w) = WriteOk
    /\ submit_data clock disk req w =
       (created id,
        after_submit w (PList (items ++ [PDict (new_record clock d v w id)]))).
Proof.
  intros Hs.
  destruct (passes_validation clock req w) eqn:P.
  - destruct (passes_validation_true clock disk req w P)
      as (d & v & -> & Hd & Hm & Hv & Hrun).
    rewrite Hrun in Hs.
    destruct (persist_outcome disk
                (sanitized_record d v (clock (ticks w)) (clock (S (ticks w))))
                (tick (tick w)))
      as [(_ & _ & _ & Hn) | (items & id & Hc & Hid & [[Hw _] | Hfail])].
    + contradiction.
    + exists d, v, items, id. repeat split; try assumption.
      apply submit_accepts; assumption.
    + destruct Hfail as (_ & Hse & _). rewrite Hse in Hs. discriminate Hs.
  - destruct (passes_validation_false clock disk req w P) as (_ & _ & Hn).
    contradiction.
Qed.

Lemma coerce_value_shape (d : dict) (v : pyval) :
  coerce_value d = inr v ->
  float_or_none v = true
  /\ (v = PNone <-> dget d (lit "value") PNone = PNone).
Proof.
  unfold coerce_value.
  destruct (dget d (lit "value") PNone) as [| b | z | f | s | l | d'] eqn:E;
    simpl; try discriminate;
    try (destruct (float_of_int _); [|discriminate]);
    try (destruct (float_of_str _); [|discriminate]);
    intros H; injection H as <-;
    (split; [reflexivity | split; intros H; try reflexivity; discriminate H]).
Qed.

Lemma new_record_fields (d : dict) (v : pyval) (w : world) (id : pyval) :
  let rec := new_record clock d v w id in
  dict_get rec (lit "title") = Some (stripped d (lit "title"))
  /\ dict_get rec (lit "description") =
     Some (optional_stripped d (lit "description"))
  /\ dict_get rec (lit "category") = Some (stripped d (lit "category"))
  /\ dict_get rec (lit "value") = Some v
  /\ dict_get rec (lit "memo") = Some (optional_stripped d (lit "memo"))
  /\ dict_get rec (lit "timestamp") =
     Some (dget d (lit "timestamp") (PStr (clock (ticks w))))
  /\ dict_get rec (lit "received_at") = Some (PStr (clock (S (ticks w))))
  /\ dict_get rec (lit "id") = Some id.
Proof. repeat (split; [reflexivity|]). reflexivity. Qed.

Lemma optional_stripped_shape (d : dict) (k : pystr) :
  trimmed_str_or_none (optional_stripped d k) = true.
Proof.
  unfold optional_stripped. destruct (py_truth (dget d k PNone)); [|reflexivity].
  apply strip_is_trimmed.
Qed.

(** X1. On a 201 the record appended to the file has a trimmed string
    for title and category, None or a trimmed string for description
    and memo, None or a float for value, and a string for
    received_at. *)
Theorem persisted_record_is_well_shaped :
  forall req w,
    status (fst (submit_data clock disk req w)) = 201 ->
    exists items rec,
      file (snd (submit_data clock disk req w)) =
      Holds (PList (items ++ [PDict rec]))
      /\ well_shaped rec = true.
Proof.
  intros req w Hs.
  destruct (created_inversion req w Hs)
    as (d & v & items & id & _ & _ & _ & Hv & _ & _ & _ & Hrun).
  rewrite Hrun. exists items, (new_record clock d v w id).
  split; [reflexivity|].
  destruct (new_record_fields d v w id) as (Ht & Hde & Hc & Hva & Hm & _ & Hr & _).
  unfold well_shaped, dget. rewrite Ht, Hde, Hc, Hva, Hm, Hr.
  rewrite !optional_stripped_shape.
  destruct (coerce_value_shape d v Hv) as [-> _].
  unfold stripped, trimmed_str. rewrite !strip_is_trimmed. reflexivity.
Qed.

(** X2. The stored [timestamp] is whatever the body holds under that
    key, of any type and null included; the first clock reading is used
    only when the key is absent. *)
Theorem timestamp_is_passed_through :
  forall d w,
    status (fst (submit_data clock disk (Json (PDict d)) w)) = 201 ->
    exists items rec,
      file (snd (submit_data clock disk (Json (PDict d)) w)) =
      Holds (PList (items ++ [PDict rec]))
      /\ dict_get rec (lit "timestamp") =
         Some (match dict_get d (lit "timestamp") with
               | Some t => t
               | None => PStr (clock (ticks w))
               end).
Proof.
  intros d w Hs.
  destruct (created_inversion _ w Hs)
    as (d' & v & items & id & E & _ & _ & _ & _ & _ & _ & Hrun).
  injection E as <-. rewrite Hrun.
  exists items, (new_record clock d v w id). split; [reflexivity|].
  apply new_record_fields.
Qed.

(** X3. The stored [value] is None exactly when the body has no
    [value] or a null one; any other accepted value, 0 and false
    included, is stored as the float [float()] makes of it. *)
Theorem value_is_none_only_when_absent :
  forall d w,
    status (fst (submit_data clock disk (Json (PDict d)) w)) = 201 ->
    exists items rec v,
      file (snd (submit_data clock disk (Json (PDict d)) w)) =
      Holds (PList (items ++ [PDict rec]))
      /\ dict_get rec (lit "value") = Some v
      /\ (v = PNone <-> dget d (lit "value") PNone = PNone)
      /\ (v <> PNone ->
          exists f, v = PFloat f
                    /\ py_float (dget d (lit "value") PNone) = inr f).
Proof.
  intros d w Hs.
  destruct (created_inversion _ w Hs)
    as (d' & v & items & id & E & _ & _ & Hv & _ & _ & _ & Hrun).
  injection E as <-. rewrite Hrun.
  exists items, (new_record clock d v w id), v.
  split; [reflexivity|]. split; [apply new_record_fields|].
  split; [apply (coerce_value_shape d v Hv)|].
  intros Hn. revert Hv. unfold coerce_value.
  destruct (dget d (lit "value") PNone) as [|b|z|x|t|l|d0];
    [intros H; injection H as <-; congruence | ..];
    unfold ebind;
    match goal with
    | |- context [py_float ?a] => destruct (py_float a) as [e|g]
    end;
    try discriminate; intros H; injection H as <-; exists g; split; reflexivity.
Qed.

(** X4. The id sent back in a 201 is the one [get_next_id] computed
    from the file as it was, and it is the [id] of the record appended. *)
Theorem reported_id_is_stored_id :
  forall req w,
    status (fst (submit_data clock disk req w)) = 201 ->
    exists items rec id,
      fst (submit_data clock disk req w) = created id
      /\ get_next_id w = (inr id, count_load w)
      /\ file (snd (submit_data clock disk req w)) =
         Holds (PList (items ++ [PDict rec]))
      /\ collection (file w) = PList items
      /\ dict_get rec (lit "id") = Some id.
Proof.
  intros req w Hs.
  destruct (created_inversion req w Hs)
    as (d & v & items & id & _ & _ & _ & _ & Hc & Hid & _ & Hrun).
  rewrite Hrun. exists items, (new_record clock d v w id), id.
  split; [reflexivity|]. split.
  - rewrite get_next_id_run, Hc. f_equal. exact Hid.
  - split; [reflexivity|]. split; [exact Hc|]. apply new_record_fields.
Qed.

(** X5. When the data file is missing or does not parse, an accepted
    submission gets id 1 and the file afterwards holds that one record
    alone. *)
Theorem unreadable_file_restarts_at_one :
  forall req w,
    unreadable (file w) = true ->
    passes_validation clock req w = true ->
    disk (saves w) = WriteOk ->
    exists rec,
      fst (submit_data clock disk req w) = created (PInt 1)
      /\ file (snd (submit_data clock disk req w)) = Holds (PList [PDict rec])
      /\ dict_get rec (lit "id") = Some (PInt 1).
Proof.
  intros req w Hu P Hw.
  destruct (proj1 (passes_validation_iff clock disk req w) P)
    as (d & v & -> & Hd & Hm & Hv).
  assert (Hc : collection (file w) = PList [])
    by (destruct (file w); [reflexivity|reflexivity|discriminate]).
  rewrite (submit_accepts d v [] (PInt 1) w Hd Hm Hv Hc eq_refl Hw).
  exists (new_record clock d v w (PInt 1)).
  split; [reflexivity|]. split; [reflexivity|]. apply new_record_fields.
Qed.

(** X6. A JSON body that is not an object is answered 400 "Empty
    request body" when it is falsy (null, false, 0, "", []) and 500
    "Internal server error" otherwise; the world is left as it was. *)
Theorem body_that_is_not_an_object :
  forall v w,
    (forall d, v <> PDict d) ->
    submit_data clock disk (Json v) w =
    (if py_truth v then error_response 500 (lit "Internal server error")
     else error_response 400 (lit "Empty request body"), w).
Proof.
  intros v w Hv.
  destruct v; try (exfalso; eapply Hv; reflexivity);
    unfold submit_data, submit_try, validate, bind; simpl;
    try reflexivity;
    match goal with
    | |- context [negb ?b] => destruct b; reflexivity
    end.
Qed.

(** X7. The required-field check comes before the coercion of
    [value]: a body lacking a required field is answered with the list
    of missing fields even when its [value] cannot be coerced. *)
Theorem required_check_precedes_coercion :
  forall d w e,
    d <> [] -> missing_fields d <> [] -> coerce_value d = inl e ->
    submit_data clock disk (Json (PDict d)) w =
    (missing_fields_response (missing_fields d), w).
Proof.
  intros d w e Hd Hm _. apply submit_missing; assumption.
Qed.

(** X8. Sanitizing is idempotent: a field submitted with the text an
    earlier submission stored is stored as that same text. *)
Theorem stripping_is_idempotent :
  forall d d' k,
    dict_get d' k = Some (stripped d k) ->
    stripped d' k = stripped d k
    /\ (optional_stripped d' k = stripped d k
        \/ (stripped d k = PStr [] /\ optional_stripped d' k = PNone)).
Proof.
  intros d d' k H.
  assert (E : stripped d' k = stripped d k).
  { unfold stripped at 1. unfold dget. rewrite H. unfold stripped. simpl.
    rewrite (strip_trimmed _ (strip_is_trimmed _)). reflexivity. }
  split; [exact E|].
  unfold optional_stripped, dget. rewrite H. fold (dget d' k (PStr [])).
  unfold stripped at 1 4. simpl.
  destruct (strip (py_str (dget d k (PStr [])))) eqn:Es.
  - right. split; reflexivity.
  - left. fold (stripped d' k). rewrite E. unfold stripped. rewrite Es.
    reflexivity.
Qed.

(** *** Lookup by id *)

Lemma int_eq (z n : Z) : is_Eq (Some (z ?= n)) = (z =? n).
Proof.
  destruct (Z.eqb_spec z n) as [->|Hne]; simpl.
  - rewrite Z.compare_refl. reflexivity.
  - destruct (z ?= n) eqn:E; try reflexivity.
    apply Z.compare_eq_iff in E. contradiction.
Qed.

Lemma explicit_id_get (item : pyval) (z : Z) :
  explicit_id item = Some z ->
  py_get item (lit "id") PNone = inr (PInt z) /\ py_truth item = true.
Proof.
  destruct item; try discriminate. simpl.
  destruct (dict_get d (lit "id")) as [[]|] eqn:E; try discriminate.
  intros H; injection H as ->. split; [reflexivity|].
  destruct d; [discriminate E | reflexivity].
Qed.

Lemma first_with_id_explicit (data_id : Z) (items : list pyval) :
  forall zs, explicit_ids items = Some zs ->
  first_with_id data_id items =
  inr (match first_match data_id items with
       | Some item => item
       | None => PNone
       end).
Proof.
  induction items as [|item items IH]; intros zs H; [reflexivity|].
  cbn [explicit_ids] in H. cbn [first_with_id first_match].
  destruct (explicit_id item) as [z|] eqn:Ez; [|discriminate].
  destruct (explicit_ids items) as [zs'|]; [|discriminate].
  destruct (explicit_id_get item z Ez) as [-> _]. unfold ebind.
  change (py_eq (PInt z) (PInt data_id)) with (is_Eq (Some (z ?= data_id))).
  rewrite int_eq. destruct (z =? data_id); [reflexivity|].
  apply (IH zs' eq_refl).
Qed.

Lemma first_match_some (data_id : Z) (items : list pyval) (item : pyval) :
  first_match data_id items = Some item ->
  explicit_id item = Some data_id /\ In item items.
Proof.
  induction items as [|x items IH]; simpl; [discriminate|].
  destruct (explicit_id x) as [z|] eqn:Ez.
  - destruct (Z.eqb_spec z data_id) as [->|Hne].
    + intros H; injection H as <-. auto.
    + intros H. destruct (IH H). auto.
  - intros H. destruct (IH H). auto.
Qed.

Lemma first_match_none (data_id : Z) (items : list pyval) :
  forall zs, explicit_ids items = Some zs ->
  (first_match data_id items = None <-> ~ In data_id zs).
Proof.
  induction items as [|x items IH]; simpl; intros zs H.
  - injection H as <-. simpl. tauto.
  - destruct (explicit_id x) as [z|] eqn:Ez; [|discriminate].
    destruct (explicit_ids items) as [zs'|]; [|discriminate].
    injection H as <-. simpl.
    destruct (Z.eqb_spec z data_id) as [->|Hne].
    + split; [discriminate | intros H; exfalso; apply H; auto].
    + rewrite (IH zs' eq_refl). tauto.
Qed.

(** X9. On a collection of records that all carry an integer id,
    [get_data_by_id] answers 200 with the first record whose id is the
    one asked for (earlier duplicates win), and 404 "Data not found"
    exactly when no record has that id. *)
Theorem get_data_by_id_finds_first :
  forall data_id w items zs,
    file w = Holds (PList items) ->
    explicit_ids items = Some zs ->
    get_data_by_id data_id w =
    (match first_match data_id items with
     | Some item => found_response item
     | None => error_response 404 (lit "Data not found")
     end, count_load w)
    /\ (first_match data_id items = None <-> ~ In data_id zs).
Proof.
  intros data_id w items zs Hf Hi.
  split; [|apply first_match_none; exact Hi].
  unfold get_data_by_id, bind. rewrite load_data_run, Hf.
  cbn [collection py_iter lift ret].
  rewrite (first_with_id_explicit data_id items zs Hi). cbn [lift ret].
  destruct (first_match data_id items) as [item|] eqn:E; [|reflexivity].
  destruct (first_match_some _ _ _ E) as [Hid _].
  destruct (explicit_id_get item data_id Hid) as [_ ->]. reflexivity.
Qed.

(** *** Identifiers *)

Lemma max_of_bounds (zs : list Z) :
  forall z, z <= max_of z zs /\ Forall (fun x => x <= max_of z zs) zs.
Proof.
  induction zs as [|a zs IH]; intros z.
  - split; [apply Z.le_refl | constructor].
  - change (max_of z (a :: zs)) with (max_of (Z.max z a) zs).
    destruct (IH (Z.max z a)) as [H1 H2].
    split; [lia|]. constructor; [lia | exact H2].
Qed.

Lemma next_id_exceeds (items : list pyval) (zs : list Z) :
  int_ids items = Some zs ->
  exists n,
    next_id (PList items) = inr (PInt n) /\ Forall (fun z => z < n) zs.
Proof.
  intros H. destruct items as [|item items].
  - injection H as <-. exists 1. split; [reflexivity | constructor].
  - destruct zs as [|z zs].
    { simpl in H. destruct (int_id item); [|discriminate].
      destruct (int_ids items); discriminate. }
    exists (max_of z zs + 1). split.
    + unfold next_id.
      change (py_truth (PList (item :: items))) with true.
      cbv beta iota delta [negb].
      rewrite (max_id_ints _ _ _ H). reflexivity.
    + destruct (max_of_bounds zs z) as [H1 H2].
      constructor; [lia|].
      revert H2. apply Forall_impl. intros x Hx. lia.
Qed.

(** X10. [get_next_id] on records with integer ids gives an integer
    strictly greater than every stored id. *)
Theorem next_id_exceeds_stored_ids :
  forall w items zs,
    file w = Holds (PList items) ->
    int_ids items = Some zs ->
    exists n,
      get_next_id w = (inr (PInt n), count_load w)
      /\ Forall (fun z => z < n) zs.
Proof.
  intros w items zs Hf Hi.
  destruct (next_id_exceeds items zs Hi) as (n & Hn & Hlt).
  exists n. split; [|exact Hlt].
  rewrite get_next_id_run, Hf. simpl. rewrite Hn. reflexivity.
Qed.

(** A submission accepted on records with integer ids. *)
Lemma submit_on_ints (req : request) (w : world) (items : list pyval)
    (zs : list Z) :
  file w = Holds (PList items) ->
  int_ids items = Some zs ->
  passes_validation clock req w = true ->
  disk (saves w) = WriteOk ->
  exists d v n,
    Forall (fun z => z < n) zs
    /\ submit_data clock disk req w =
       (created (PInt n),
        after_submit w
          (PList (items ++ [PDict (new_record clock d v w (PInt n))]))).
Proof.
  intros Hf Hi P Hw.
  destruct (proj1 (passes_validation_iff clock disk req w) P)
    as (d & v & -> & Hd & Hm & Hv).
  destruct (next_id_exceeds items zs Hi) as (n & Hn & Hlt).
  exists d, v, n. split; [exact Hlt|].
  apply submit_accepts; try assumption. rewrite Hf. reflexivity.
Qed.

(** X11. Ids stay distinct: when the stored records have pairwise
    distinct integer ids, so have the records after an accepted
    submission, the new id being greater than all the others. *)
Theorem ids_stay_distinct :
  forall req w items zs,
    file w = Holds (PList items) ->
    int_ids items = Some zs ->
    NoDup zs ->
    passes_validation clock req w = true ->
    disk (saves w) = WriteOk ->
    exists rec n,
      file (snd (submit_data clock disk req w)) =
      Holds (PList (items ++ [PDict rec]))
      /\ int_ids (items ++ [PDict rec]) = Some (zs ++ [n])
      /\ Forall (fun z => z < n) zs
      /\ NoDup (zs ++ [n]).
Proof.
  intros req w items zs Hf Hi Hnd P Hw.
  destruct (submit_on_ints req w items zs Hf Hi P Hw)
    as (d & v & n & Hlt & Hrun).
  rewrite Hrun. exists (new_record clock d v w (PInt n)), n.
  split; [reflexivity|]. split.
  - apply int_ids_snoc; [exact Hi | apply int_id_of_new_record].
  - split; [exact Hlt|].
    apply NoDup_app; [exact Hnd | constructor; [intros [] | constructor] |].
    intros x Hx [E|[]]. subst x.
    rewrite Forall_forall in Hlt. specialize (Hlt n Hx). lia.
Qed.

Lemma first_with_id_skip (n : Z) (items rest : list pyval) :
  forall zs,
    int_ids items = Some zs -> Forall (fun z => z < n) zs ->
    first_with_id n (items ++ rest) = first_with_id n rest.
Proof.
  induction items as [|item items IH]; intros zs Hi Hlt; [reflexivity|].
  cbn [int_ids] in Hi.
  destruct (int_id item) as [z|] eqn:Ez; [|discriminate].
  destruct (int_ids items) as [zs'|]; [|discriminate].
  injection Hi as <-. inversion Hlt as [|? ? Hz Hlt']; subst.
  destruct item; try discriminate Ez.
  cbn [app first_with_id py_get ebind]. unfold int_id, dget in Ez.
  destruct (dict_get d (lit "id")) as [x|].
  - destruct x; try discriminate Ez. injection Ez as ->.
    change (py_eq (PInt z) (PInt n)) with (is_Eq (Some (z ?= n))).
    rewrite int_eq. destruct (Z.eqb_spec z n); [lia|].
    apply (IH zs' eq_refl Hlt').
  - apply (IH zs' eq_refl Hlt').
Qed.

(** X12. Round trip: after an accepted submission on records with
    integer ids, [get_data_by_id] with the id sent back answers 200
    with the very record that was appended. *)
Theorem submitted_record_is_retrievable :
  forall req w items zs,
    file w = Holds (PList items) ->
    int_ids items = Some zs ->
    passes_validation clock req w = true ->
    disk (saves w) = WriteOk ->
    exists n rec,
      fst (submit_data clock disk req w) = created (PInt n)
      /\ file (snd (submit_data clock disk req w)) =
         Holds (PList (items ++ [PDict rec]))
      /\ get_data_by_id n (snd (submit_data clock disk req w)) =
         (found_response (PDict rec),
          count_load (snd (submit_data clock disk req w))).
Proof.
  intros req w items zs Hf Hi P Hw.
  destruct (submit_on_ints req w items zs Hf Hi P Hw)
    as (d & v & n & Hlt & Hrun).
  rewrite Hrun. exists n, (new_record clock d v w (PInt n)).
  split; [reflexivity|]. split; [reflexivity|].
  unfold get_data_by_id, bind. rewrite load_data_run.
  cbn [snd after_submit count_save file collection py_iter lift ret].
  rewrite (first_with_id_skip n items _ zs Hi Hlt).
  cbn [first_with_id py_get]. unfold new_record at 1.
  rewrite dict_get_set_same. cbn [ebind].
  change (py_eq (PInt n) (PInt n)) with (is_Eq (Some (n ?= n))).
  rewrite int_eq, Z.eqb_refl. reflexivity.
Qed.

(** X13. After a 201, [get_all_data] lists the former records in
    their order followed by the new one, and counts one more. *)
Theorem submitted_record_is_listed :
  forall req w,
    status (fst (submit_data clock disk req w)) = 201 ->
    exists items rec,
      collection (file w) = PList items
      /\ get_all_data (snd (submit_data clock disk req w)) =
         (all_data_response (PList (items ++ [PDict rec]))
            (Z.of_nat (List.length items) + 1),
          count_load (snd (submit_data clock disk req w))).
Proof.
  intros req w Hs.
  destruct (created_inversion req w Hs)
    as (d & v & items & id & _ & _ & _ & _ & Hc & _ & _ & Hrun).
  rewrite Hrun. exists items, (new_record clock d v w id).
  split; [exact Hc|].
  unfold get_all_data, bind. rewrite load_data_run.
  cbn [snd after_submit count_save file collection py_len lift ret].
  rewrite length_app, Nat2Z.inj_add. reflexivity.
Qed.

(** *** Exceptions of the persistence half *)

Lemma py_gt_raises : forall a b e, py_gt a b = inl e -> e = TypeError.
Proof.
  fix IH 1. intros a b e.
  destruct a as [|x|z|f|s|l|d].
  - simpl. intros H; injection H as <-; reflexivity.
  - simpl. destruct (as_number b); [discriminate|].
    intros H; injection H as <-; reflexivity.
  - simpl. destruct (as_number b); [discriminate|].
    intros H; injection H as <-; reflexivity.
  - simpl. destruct (as_number b); [discriminate|].
    intros H; injection H as <-; reflexivity.
  - simpl. destruct b; try discriminate;
      intros H; injection H as <-; reflexivity.
  - simpl. destruct b as [| | | | |l'|];
      try (intros H; injection H as <-; reflexivity).
    revert l'. induction l as [|x l IHl]; intros [|y l']; try discriminate.
    destruct (py_eq x y); [apply IHl | apply IH].
  - simpl. intros H; injection H as <-; reflexivity.
Qed.

Lemma max_loop_raises (items : list pyval) :
  forall cur e,
    max_loop cur items = inl e -> e = TypeError \/ e = AttributeError.
Proof.
  induction items as [|item items IH]; intros cur e; simpl; [discriminate|].
  unfold item_id, py_get, ebind.
  destruct item; try (intros H; injection H as <-; auto).
  destruct (py_gt _ cur) as [e'|b] eqn:E.
  - intros H; injection H as <-. left. apply (py_gt_raises _ _ _ E).
  - apply IH.
Qed.

Lemma next_id_raises (data : pyval) (e : exn) :
  next_id data = inl e -> e = TypeError \/ e = AttributeError.
Proof.
  unfold next_id. destruct (py_truth data) eqn:T; simpl; [|discriminate].
  assert (Hadd : forall m e, py_add1 m = inl e -> e = TypeError).
  { intros m e'. destruct m; simpl; try discriminate;
      intros H; injection H as <-; reflexivity. }
  assert (Hmax : forall items e,
             items <> [] ->
             ebind (match items with
                    | [] => inl (ValueError (lit "max() arg is an empty sequence"))
                    | item :: rest =>
                        ebind (item_id item) (fun v => max_loop v rest)
                    end) py_add1 = inl e ->
             e = TypeError \/ e = AttributeError).
  { intros [|item rest] e' Hne; [congruence|].
    unfold item_id, py_get. 
    destruct item; simpl; try (intros H; injection H as <-; auto).
    destruct (max_loop _ rest) as [e''|m] eqn:E; simpl.
    - intros H; injection H as <-. apply (max_loop_raises _ _ _ E).
    - intros H. left. apply (Hadd _ _ H). }
  unfold max_id.
  destruct data; simpl in T |- *; try discriminate;
    try (intros H; injection H as <-; auto).
  - destruct s; [discriminate T|]. apply (Hmax (_ :: _)). discriminate.
  - destruct l; [discriminate T|]. apply (Hmax (_ :: _)). discriminate.
  - destruct d; [discriminate T|]. apply (Hmax (_ :: _)). discriminate.
Qed.

(** Whatever is raised after validation is answered 500. *)
Lemma persist_raised (rec : dict) (w w' : world) (e : exn) :
  persist disk rec w = (inl e, w') ->
  handle (inl e, w') = (error_response 500 (lit "Internal server error"), w')
  /\ file w' = file w /\ saves w' = saves w.
Proof.
  rewrite persist_run.
  destruct (next_id (collection (file w))) as [e0|id] eqn:Hid.
  - intros H; injection H as <- <-.
    destruct (next_id_raises _ _ Hid) as [-> | ->]; repeat split.
  - cbv zeta. destruct (py_append _ _) as [e1|all_data] eqn:Ha.
    + intros H; injection H as <- <-.
      destruct (collection (file w)); simpl in Ha; try discriminate Ha;
        injection Ha as <-; repeat split.
    + destruct (disk (saves w)); discriminate.
Qed.

(** X14. A parsed collection that is not a list is never overwritten:
    no submission changes the file or attempts a write, and a request
    that passes validation is answered 500 "Internal server error". *)
Theorem unusable_collection_is_left_alone :
  forall req w,
    (forall items, collection (file w) <> PList items) ->
    file (snd (submit_data clock disk req w)) = file w
    /\ saves (snd (submit_data clock disk req w)) = saves w
    /\ (passes_validation clock req w = true ->
        fst (submit_data clock disk req w) =
        error_response 500 (lit "Internal server error")).
Proof.
  intros req w Hc.
  destruct (passes_validation clock req w) eqn:P.
  - destruct (passes_validation_true clock disk req w P)
      as (d & v & -> & _ & _ & _ & Hrun).
    rewrite Hrun.
    destruct (persist disk
                (sanitized_record d v (clock (ticks w)) (clock (S (ticks w))))
                (tick (tick w))) as [[e|r] w'] eqn:E.
    + destruct (persist_raised _ _ _ _ E) as (-> & Hf & Hs).
      repeat split; assumption.
    + exfalso. revert E. rewrite persist_run.
      change (file (tick (tick w))) with (file w).
      destruct (next_id (collection (file w))); [discriminate|]. cbv zeta.
      destruct (collection (file w)) eqn:E'; simpl; try discriminate.
      exfalso. eapply Hc. reflexivity.
  - destruct (passes_validation_false clock disk req w P) as (-> & _).
    repeat split. discriminate.
Qed.

(** X15. The read handlers never write: whatever they answer, they
    leave the world with one more load and nothing else changed. *)
Theorem read_path_never_writes :
  forall data_id w,
    snd (get_all_data w) = count_load w
    /\ snd (get_data_by_id data_id w) = count_load w.
Proof.
  intros data_id w. split.
  - unfold get_all_data, bind. rewrite load_data_run.
    destruct (py_len (collection (file w))); reflexivity.
  - unfold get_data_by_id, bind. rewrite load_data_run.
    destruct (py_iter (collection (file w))) as [e|items]; [reflexivity|].
    cbn [lift ret].
    destruct (first_with_id data_id items) as [e|item]; [reflexivity|].
    cbn [lift ret]. destruct (py_truth item); reflexivity.
Qed.

(** X16. [get_all_data] returns a stored list as it is with its
    length; when the file parses to a number, a boolean or null,
    [load_data] succeeds but the handler answers 500 "Failed to
    retrieve data". *)
Theorem get_all_data_on_parsed_file :
  forall w,
    (forall l, file w = Holds (PList l) ->
               get_all_data w =
               (all_data_response (PList l) (Z.of_nat (List.length l)),
                count_load w))
    /\ (unsized (collection (file w)) = true ->
        get_all_data w =
        (error_response 500 (lit "Failed to retrieve data"), count_load w)).
Proof.
  intros w. split.
  - intros l Hf. unfold get_all_data, bind. rewrite load_data_run, Hf.
    reflexivity.
  - intros Hu. unfold get_all_data, bind. rewrite load_data_run.
    destruct (collection (file w)); try discriminate Hu; reflexivity.
Qed.

(** X17. [save_data] never raises; when the write completes it
    returns True and [load_data] then reads back what was saved; when
    the write fails it returns False and [load_data] then gives the
    former collection or the empty list. *)
Theorem save_then_load :
  forall data w,
    (disk (saves w) = WriteOk ->
     fst (save_data disk data w) = inr true
     /\ fst (load_data (snd (save_data disk data w))) = inr data)
    /\ (disk (saves w) <> WriteOk ->
        fst (save_data disk data w) = inr false
        /\ (fst (load_data (snd (save_data disk data w))) =
            inr (collection (file w))
            \/ fst (load_data (snd (save_data disk data w))) = inr (PList []))).
Proof.
  intros data w. unfold save_data, try_except, bind, write_json.
  destruct (disk (saves w)) eqn:E; simpl; split;
    try (intros H; discriminate H); try (intros H; exfalso; apply H; reflexivity).
  - intros _. split; reflexivity.
  - intros _. split; [reflexivity|]. left. rewrite load_data_run. reflexivity.
  - intros _. split; [reflexivity|]. right. reflexivity.
Qed.

(** *** Answers *)

Lemma validate_early_shape (req : request) (w w1 : world) (r : response) :
  validate clock req w = (inr (inl r), w1) ->
  (req = NotJson
   /\ r = error_response 400 (lit "Content-Type must be application/json"))
  \/ (exists v, req = Json v /\ py_truth v = false
                /\ r = error_response 400 (lit "Empty request body"))
  \/ (exists d, req = Json (PDict d) /\ missing_fields d <> []
                /\ r = missing_fields_response (missing_fields d)).
Proof.
  destruct req as [| |data]; simpl.
  - intros H; injection H as <- <-; auto.
  - discriminate.
  - unfold validate, bind; simpl.
    destruct (py_truth data) eqn:T; simpl.
    + destruct data; try discriminate.
      destruct (missing_fields d) eqn:Hm.
      * rewrite sanitize_run. destruct (coerce_value d); discriminate.
      * intros H; injection H as <- <-. right; right. exists d.
        rewrite Hm. repeat split. discriminate.
    + intros H; injection H as <- <-. right; left. exists data. auto.
Qed.

(** X18. [submit_data] answers 201, 400 or 500 and nothing else; every
    answer but the 201 carries an [error] message, and so does every
    answer of the read handlers that is not a 200. *)
Theorem failures_carry_an_error_message :
  forall req data_id w,
    ((exists id, fst (submit_data clock disk req w) = created id)
     \/ exists code msg,
          (code = 400 \/ code = 500)
          /\ status (fst (submit_data clock disk req w)) = code
          /\ dict_get (body (fst (submit_data clock disk req w))) (lit "error")
             = Some (PStr msg))
    /\ ((exists data count,
           fst (get_all_data w) = all_data_response data count)
        \/ fst (get_all_data w) =
           error_response 500 (lit "Failed to retrieve data"))
    /\ ((exists item, fst (get_data_by_id data_id w) = found_response item)
        \/ fst (get_data_by_id data_id w) =
           error_response 404 (lit "Data not found")
        \/ fst (get_data_by_id data_id w) =
           error_response 500 (lit "Failed to retrieve data")).
Proof.
  intros req data_id w. split; [|split].
  - unfold submit_data. rewrite submit_try_run.
    destruct (validate clock req w) as [[e|[early|rec]] w1] eqn:V.
    + right. destruct e; simpl;
        first [ exists 400; eexists; split; [left; reflexivity|];
                split; reflexivity
              | exists 500; eexists; split; [right; reflexivity|];
                split; reflexivity ].
    + right. exists 400.
      destruct (validate_early_shape _ _ _ _ V)
        as [[_ ->] | [(v & _ & _ & ->) | (d & _ & _ & ->)]];
        eexists; (split; [left; reflexivity|]); split; reflexivity.
    + destruct (persist disk rec w1) as [[e|r] w'] eqn:E.
      * destruct (persist_raised _ _ _ _ E) as (-> & _).
        right. exists 500. eexists. split; [right; reflexivity|].
        split; reflexivity.
      * revert E. rewrite persist_run.
        destruct (next_id (collection (file w1))) as [e|id]; [discriminate|].
        cbv zeta. destruct (py_append _ _); [discriminate|].
        destruct (disk (saves w1)); intros H; injection H as <- <-;
          first [ left; exists id; reflexivity
                | right; exists 500; eexists; split; [right; reflexivity|];
                  split; reflexivity ].
  - unfold get_all_data, bind. rewrite load_data_run.
    destruct (py_len (collection (file w))) as [e|n]; simpl.
    + right. reflexivity.
    + left. exists (collection (file w)), n. reflexivity.
  - unfold get_data_by_id, bind. rewrite load_data_run.
    destruct (py_iter (collection (file w))) as [e|items]; cbn [lift ret raise].
    + right; right. reflexivity.
    + destruct (first_with_id data_id items) as [e|item]; cbn [lift ret raise].
      * right; right. reflexivity.
      * destruct (py_truth item); simpl.
        -- left. exists item. reflexivity.
        -- right; left. reflexivity.
Qed.

Lemma coerce_value_error (d : dict) (msg : pystr) :
  coerce_value d = inl (ValueError msg) ->
  exists s,
    dict_get d (lit "value") = Some (PStr s)
    /\ float_of_str s = None
    /\ msg = lit "could not convert string to float: " ++ str_repr s.
Proof.
  unfold coerce_value, dget.
  destruct (dict_get d (lit "value")) as [x|]; [|discriminate].
  destruct x as [|b|z|f|s|l|d0]; unfold ebind, py_float; try discriminate.
  - destruct (float_of_int _); discriminate.
  - destruct (float_of_int _); discriminate.
  - destruct (float_of_str s) eqn:Hs; [discriminate|].
    intros H; injection H as <-. exists s. auto.
Qed.

Lemma validate_raised_cases (req : request) (w w1 : world) (e : exn) :
  validate clock req w = (inl e, w1) ->
  e = BadRequest \/ e = AttributeError
  \/ exists d, req = Json (PDict d) /\ missing_fields d = []
               /\ coerce_value d = inl e.
Proof.
  destruct req as [| |data].
  - discriminate.
  - intros H; injection H as <- _. auto.
  - unfold validate, bind; cbn [is_json negb get_json ret].
    destruct (py_truth data) eqn:T; cbn [negb]; [|discriminate].
    destruct data; try (intros H; injection H as <- _; auto).
    destruct (missing_fields d) eqn:Hm; [|discriminate].
    rewrite sanitize_run.
    destruct (coerce_value d) as [e'|v] eqn:Hv; [|discriminate].
    intros H; injection H as <- _. right; right. exists d. auto.
Qed.

(** X19. A 400 from [submit_data] has one of four causes, read off the
    request alone: the Content-Type, a falsy body, a missing required
    field, or a [value] that is a string [float()] does not read; in
    every case the world is left as it was. *)
Theorem bad_request_has_four_causes :
  forall req w,
    status (fst (submit_data clock disk req w)) = 400 ->
    snd (submit_data clock disk req w) = w
    /\ ((req = NotJson
         /\ fst (submit_data clock disk req w) =
            error_response 400 (lit "Content-Type must be application/json"))
        \/ (exists v, req = Json v /\ py_truth v = false
                      /\ fst (submit_data clock disk req w) =
                         error_response 400 (lit "Empty request body"))
        \/ (exists d, req = Json (PDict d) /\ missing_fields d <> []
                      /\ fst (submit_data clock disk req w) =
                         missing_fields_response (missing_fields d))
        \/ (exists d s,
              req = Json (PDict d) /\ missing_fields d = []
              /\ dict_get d (lit "value") = Some (PStr s)
              /\ float_of_str s = None
              /\ fst (submit_data clock disk req w) =
                 error_response 400
                   (lit "Validation error: could not convert string to float: "
                    ++ str_repr s))).
Proof.
  intros req w. unfold submit_data. rewrite submit_try_run.
  destruct (validate clock req w) as [[e|[early|rec]] w1] eqn:V.
  - pose proof (validate_raised _ _ _ _ _ V) as ->.
    destruct e as [msg| | | | |]; try discriminate. intros _.
    split; [reflexivity|].
    destruct (validate_raised_cases _ _ _ _ V)
      as [H | [H | (d & -> & Hm & Hv)]]; try discriminate H.
    destruct (coerce_value_error d msg Hv) as (s & Hs & Hf & ->).
    right; right; right. exists d, s. repeat split; auto.
  - intros _. destruct (validate_early _ _ _ _ _ V) as [_ ->].
    split; [reflexivity|]. simpl.
    destruct (validate_early_shape _ _ _ _ V)
      as [H | [H | H]]; auto.
  - destruct (persist disk rec w1) as [[e|r] w'] eqn:E.
    + destruct (persist_raised _ _ _ _ E) as (-> & _). discriminate.
    + revert E. rewrite persist_run.
      destruct (next_id (collection (file w1))) as [e|id]; [discriminate|].
      cbv zeta. destruct (py_append _ _); [discriminate|].
      destruct (disk (saves w1)); intros H; injection H as <- <-; discriminate.
Qed.

(** *** Sequences of submissions *)

Lemma run_extends (reqs : list request) :
  forall (w : world) (items : list pyval) (k : nat),
    file w = Holds (PList items) ->
    int_ids items = Some (map Z.of_nat (seq 1 k)) ->
    (forall n, disk n = WriteOk) ->
    (forall req w', In req reqs -> passes_validation clock req w' = true) ->
    exists added,
      file (snd (run clock disk reqs w)) = Holds (PList (items ++ added))
      /\ List.length added = List.length reqs
      /\ int_ids (items ++ added) =
         Some (map Z.of_nat (seq 1 (k + List.length reqs))).
Proof.
  induction reqs as [|req reqs IH]; intros w items k Hf Hi Hd Hv.
  - exists []. rewrite app_nil_r, Nat.add_0_r. auto.
  - pose proof (Hv req w (or_introl eq_refl)) as P.
    destruct (submit_on_ints req w items _ Hf Hi P (Hd (saves w)))
      as (d & v & n & _ & Hrun).
    destruct (submit_step clock disk req w items k P Hf Hi (Hd (saves w)))
      as (Hr & _).
    rewrite Hrun in Hr. cbn [fst] in Hr. injection Hr as ->.
    assert (Hi' : int_ids (items ++ [PDict (new_record clock d v w
                                               (PInt (Z.of_nat (S k))))]) =
                  Some (map Z.of_nat (seq 1 (S k)))).
    { rewrite seq_S, map_app. cbn [map Nat.add].
      apply int_ids_snoc; [exact Hi | apply int_id_of_new_record]. }
    cbn [run]. rewrite Hrun.
    destruct (IH (after_submit w
                    (PList (items ++ [PDict (new_record clock d v w
                                               (PInt (Z.of_nat (S k))))])))
                _ (S k) eq_refl Hi' Hd
                (fun q w' Hq => Hv q w' (or_intror Hq)))
      as (added & Hfile & Hlen & Hids).
    destruct (run clock disk reqs _) as [rs w2]. cbn [snd] in Hfile |- *.
    exists (PDict (new_record clock d v w (PInt (Z.of_nat (S k)))) :: added).
    rewrite <- app_assoc in Hfile, Hids. cbn [app] in Hfile, Hids.
    split; [exact Hfile|]. split; [cbn [List.length]; congruence|].
    cbn [List.length]. rewrite Nat.add_succ_r. exact Hids.
Qed.

(** X20. Accepted submissions handled one after the other on an empty
    store, every write succeeding, leave as many records as there were
    requests, with the ids 1, 2, 3, ... in the order of submission;
    [get_all_data] then counts them. *)
Theorem run_fills_collection :
  forall reqs w,
    file w = Holds (PList []) ->
    (forall n, disk n = WriteOk) ->
    (forall req w', In req reqs -> passes_validation clock req w' = true) ->
    exists items,
      file (snd (run clock disk reqs w)) = Holds (PList items)
      /\ List.length items = List.length reqs
      /\ int_ids items = Some (map Z.of_nat (seq 1 (List.length reqs)))
      /\ fst (get_all_data (snd (run clock disk reqs w))) =
         all_data_response (PList items) (Z.of_nat (List.length reqs)).
Proof.
  intros reqs w Hf Hd Hv.
  destruct (run_extends reqs w [] 0%nat Hf eq_refl Hd Hv)
    as (items & Hfile & Hlen & Hids).
  cbn [app Nat.add] in *. exists items.
  split; [exact Hfile|]. split; [exact Hlen|]. split; [exact Hids|].
  unfold get_all_data, bind. rewrite load_data_run, Hfile.
  cbn [collection py_len lift ret fst]. rewrite Hlen. reflexivity.
Qed.

End MoreProperties.

(** ** The theorems at concrete requests

    Evaluated with the [Binary64] runtime. *)

#[local] Existing Instance Binary64.runtime.

Lemma load_data_never_raises_witness :
  unreadable (file missing_store) = true
  /\ load_data missing_store = (inr (PList []), count_load missing_store)
  /\ get_all_data missing_store =
     (all_data_response (PList []) 0, count_load missing_store).
Proof.
  split; [reflexivity|].
  pose proof (proj2 (@load_data_never_raises Binary64.runtime)
                missing_store eq_refl) as (H1 & H2 & _).
  split; [exact H1 | exact H2].
Defined.

(** The answer to [{}] carries no [missing_fields]. *)
Lemma empty_object_counterexample :
  ~ (let r := fst (submit_data sample_clock always_ok (Json (PDict []))
                     empty_store) in
     status r = 400
     /\ exists l,
          dict_get (body r) (lit "missing_fields") = Some (PList l)
          /\ In (PStr (lit "title")) l /\ In (PStr (lit "category")) l).
Proof.
  intros (_ & l & H & _).
  change (None = Some (PList l)) in H. discriminate H.
Qed.

Lemma empty_object_and_both_missing_witness :
  body_memo_only <> []
  /\ py_truth (dget body_memo_only (lit "title") PNone) = false
  /\ py_truth (dget body_memo_only (lit "category") PNone) = false
  /\ submit_data sample_clock always_ok (Json (PDict body_memo_only))
       empty_store =
     (missing_fields_response [lit "title"; lit "category"], empty_store).
Proof.
  assert (Hd : body_memo_only (R := Binary64.runtime) <> []) by discriminate.
  split; [exact Hd|]. split; [reflexivity|]. split; [reflexivity|].
  exact (proj2 (empty_object_and_both_missing sample_clock always_ok
                  empty_store) body_memo_only Hd eq_refl eq_refl).
Defined.

Lemma falsy_required_field_is_missing_witness :
  In (lit "title") required_fields
  /\ dict_get body_zero_title (lit "title") = Some (PInt 0)
  /\ submit_data sample_clock always_ok (Json (PDict body_zero_title))
       empty_store =
     (missing_fields_response [lit "title"], empty_store)
  /\ In (lit "title") (missing_fields body_zero_title).
Proof.
  assert (Hin : In (lit "title") required_fields) by (left; reflexivity).
  pose proof (@falsy_required_field_is_missing Binary64.runtime sample_clock
                always_ok body_zero_title (lit "title") (PInt 0) empty_store
                Hin eq_refl eq_refl) as (H1 & H2 & _).
  split; [exact Hin|]. split; [reflexivity|].
  split; [exact H1 | exact H2].
Defined.

Lemma validation_precedes_persistence_witness :
  snd (submit_data sample_clock always_ok (Json (PDict [])) empty_store) =
  empty_store
  /\ passes_validation sample_clock (Json (PDict body_simple)) empty_store = true
  /\ file (snd (submit_data sample_clock never_opens (Json (PDict body_simple))
                  empty_store)) = Holds (PList []).
Proof.
  split; [|split].
  - exact (proj1 (proj2 (@validation_precedes_persistence Binary64.runtime
                           sample_clock always_ok (Json (PDict []))
                           empty_store)) eq_refl).
  - exact (proj1 (proj2 (proj2 (@validation_precedes_persistence
                                  Binary64.runtime sample_clock never_opens
                                  (Json (PDict body_simple)) empty_store))
                    eq_refl)).
  - reflexivity.
Defined.

Lemma persisted_record_has_eight_fields_witness :
  body_simple <> [] /\ body_extra_key <> []
  /\ submit_data sample_clock always_ok (Json (PDict body_simple)) empty_store =
     submit_data sample_clock always_ok (Json (PDict body_extra_key)) empty_store.
Proof.
  assert (H1 : body_simple (R := Binary64.runtime) <> []) by discriminate.
  assert (H2 : body_extra_key (R := Binary64.runtime) <> []) by discriminate.
  split; [exact H1|]. split; [exact H2|].
  apply (proj2 (@persisted_record_has_eight_fields Binary64.runtime
                  sample_clock always_ok) body_simple body_extra_key
           empty_store H1 H2).
  intros k Hk. vm_compute in Hk.
  repeat (destruct Hk as [Hk|Hk]; [subst k; reflexivity|]).
  destruct Hk.
Defined.

Lemma received_at_is_server_time_witness :
  submit_data sample_clock always_ok
    (Json (PDict (body_received_at (lit "1999-01-01")))) empty_store =
  submit_data sample_clock always_ok
    (Json (PDict (body_received_at (lit "2999-12-31")))) empty_store.
Proof.
  refine (proj1 (proj2 (@received_at_is_server_time Binary64.runtime
                          sample_clock always_ok
                          (body_received_at (lit "1999-01-01"))
                          (body_received_at (lit "2999-12-31"))
                          empty_store _)) _ _); try discriminate.
  intros k Hk. unfold body_received_at, body_simple. cbn [app dict_get].
  destruct (pystr_eqb (lit "title") k); [reflexivity|].
  destruct (pystr_eqb (lit "category") k); [reflexivity|].
  destruct (pystr_eqb (lit "received_at") k) eqn:E; [|reflexivity].
  apply pystr_eqb_eq in E. congruence.
Defined.

Lemma ids_are_sequential_witness :
  get_next_id missing_store = (inr (PInt 1), count_load missing_store)
  /\ fst (run sample_clock always_ok
            [Json (PDict body_simple); Json (PDict body_with_value);
             Json (PDict body_extra_key)] empty_store) =
     [created (PInt 1); created (PInt 2); created (PInt 3)].
Proof.
  pose proof (@ids_are_sequential Binary64.runtime sample_clock always_ok)
    as (H1 & _ & _ & H3).
  split.
  - exact (H1 missing_store eq_refl).
  - apply (H3 _ _ _ empty_store eq_refl (fun n => eq_refl)).
    intros req w' Hin.
    destruct Hin as [<-|[<-|[<-|[]]]]; reflexivity.
Defined.

(** ** The further properties at concrete requests *)

Lemma persisted_record_is_well_shaped_witness :
  status (fst (submit_data sample_clock always_ok
                 (Json (PDict body_null_timestamp)) empty_store)) = 201
  /\ exists items rec,
       file (snd (submit_data sample_clock always_ok
                    (Json (PDict body_null_timestamp)) empty_store)) =
       Holds (PList (items ++ [PDict rec]))
       /\ well_shaped rec = true.
Proof.
  assert (H : status (fst (submit_data sample_clock always_ok
                             (Json (PDict body_null_timestamp)) empty_store))
              = 201) by reflexivity.
  split; [exact H|].
  exact (persisted_record_is_well_shaped sample_clock always_ok _ _ H).
Defined.

Lemma timestamp_is_passed_through_witness :
  status (fst (submit_data sample_clock always_ok
                 (Json (PDict body_null_timestamp)) empty_store)) = 201
  /\ exists items rec,
       file (snd (submit_data sample_clock always_ok
                    (Json (PDict body_null_timestamp)) empty_store)) =
       Holds (PList (items ++ [PDict rec]))
       /\ dict_get rec (lit "timestamp") = Some PNone.
Proof.
  assert (H : status (fst (submit_data sample_clock always_ok
                             (Json (PDict body_null_timestamp)) empty_store))
              = 201) by reflexivity.
  split; [exact H|].
  exact (timestamp_is_passed_through sample_clock always_ok
           body_null_timestamp empty_store H).
Defined.

Lemma value_is_none_only_when_absent_witness :
  status (fst (submit_data sample_clock always_ok
                 (Json (PDict body_null_timestamp)) empty_store)) = 201
  /\ exists items rec v,
       file (snd (submit_data sample_clock always_ok
                    (Json (PDict body_null_timestamp)) empty_store)) =
       Holds (PList (items ++ [PDict rec]))
       /\ dict_get rec (lit "value") = Some v
       /\ (v = PNone <-> PInt 0 = PNone)
       /\ (v <> PNone ->
           exists f, v = PFloat f /\ py_float (PInt 0) = inr f).
Proof.
  assert (H : status (fst (submit_data sample_clock always_ok
                             (Json (PDict body_null_timestamp)) empty_store))
              = 201) by reflexivity.
  split; [exact H|].
  exact (value_is_none_only_when_absent sample_clock always_ok
           body_null_timestamp empty_store H).
Defined.

Lemma reported_id_is_stored_id_witness :
  status (fst (submit_data sample_clock always_ok (Json (PDict body_simple))
                 (store_of (PList two_records)))) = 201
  /\ exists items rec id,
       fst (submit_data sample_clock always_ok (Json (PDict body_simple))
              (store_of (PList two_records))) = created id
       /\ get_next_id (store_of (PList two_records)) =
          (inr id, count_load (store_of (PList two_records)))
       /\ file (snd (submit_data sample_clock always_ok
                       (Json (PDict body_simple))
                       (store_of (PList two_records)))) =
          Holds (PList (items ++ [PDict rec]))
       /\ collection (file (store_of (PList two_records))) = PList items
       /\ dict_get rec (lit "id") = Some id.
Proof.
  assert (H : status (fst (submit_data sample_clock always_ok
                             (Json (PDict body_simple))
                             (store_of (PList two_records)))) = 201)
    by reflexivity.
  split; [exact H|].
  exact (reported_id_is_stored_id sample_clock always_ok _ _ H).
Defined.

Lemma unreadable_file_restarts_at_one_witness :
  unreadable (file corrupt_store) = true
  /\ exists rec,
       fst (submit_data sample_clock always_ok (Json (PDict body_simple))
              corrupt_store) = created (PInt 1)
       /\ file (snd (submit_data sample_clock always_ok
                       (Json (PDict body_simple)) corrupt_store)) =
          Holds (PList [PDict rec])
       /\ dict_get rec (lit "id") = Some (PInt 1).
Proof.
  split; [reflexivity|].
  exact (unreadable_file_restarts_at_one sample_clock always_ok
           (Json (PDict body_simple)) corrupt_store eq_refl eq_refl eq_refl).
Defined.

Lemma body_that_is_not_an_object_witness :
  submit_data sample_clock always_ok (Json (PList [PInt 1])) empty_store =
  (error_response 500 (lit "Internal server error"), empty_store)
  /\ submit_data sample_clock always_ok (Json (PList [])) empty_store =
     (error_response 400 (lit "Empty request body"), empty_store).
Proof.
  split.
  - apply (body_that_is_not_an_object sample_clock always_ok
             (PList [PInt 1]) empty_store).
    intros d H. discriminate H.
  - apply (body_that_is_not_an_object sample_clock always_ok
             (PList []) empty_store).
    intros d H. discriminate H.
Defined.

Lemma required_check_precedes_coercion_witness :
  coerce_value body_no_title_bad_value =
  inl (ValueError (lit "could not convert string to float: 'abc'"))
  /\ submit_data sample_clock always_ok (Json (PDict body_no_title_bad_value))
       empty_store =
     (missing_fields_response [lit "title"], empty_store).
Proof.
  split; [reflexivity|].
  apply (required_check_precedes_coercion sample_clock always_ok
           body_no_title_bad_value empty_store
           (ValueError (lit "could not convert string to float: 'abc'"))).
  - discriminate.
  - discriminate.
  - reflexivity.
Defined.

Lemma stripping_is_idempotent_witness :
  stripped body_null_timestamp (lit "title") = PStr (lit "A")
  /\ stripped [(lit "title", PStr (lit "A"))] (lit "title") = PStr (lit "A").
Proof.
  split; [reflexivity|].
  exact (proj1 (@stripping_is_idempotent Binary64.runtime body_null_timestamp
                  [(lit "title", PStr (lit "A"))] (lit "title") eq_refl)).
Defined.

Lemma get_data_by_id_finds_first_witness :
  explicit_ids two_records = Some [3; 7]
  /\ get_data_by_id 7 (store_of (PList two_records)) =
     (found_response
        (PDict [(lit "title", PStr (lit "older")); (lit "id", PInt 7)]),
      count_load (store_of (PList two_records)))
  /\ get_data_by_id 5 (store_of (PList two_records)) =
     (error_response 404 (lit "Data not found"),
      count_load (store_of (PList two_records))).
Proof.
  split; [reflexivity|]. split.
  - exact (proj1 (@get_data_by_id_finds_first Binary64.runtime 7
                    (store_of (PList two_records)) two_records [3; 7]
                    eq_refl eq_refl)).
  - exact (proj1 (@get_data_by_id_finds_first Binary64.runtime 5
                    (store_of (PList two_records)) two_records [3; 7]
                    eq_refl eq_refl)).
Defined.

Lemma next_id_exceeds_stored_ids_witness :
  int_ids two_records = Some [3; 7]
  /\ exists n,
       get_next_id (store_of (PList two_records)) =
       (inr (PInt n), count_load (store_of (PList two_records)))
       /\ Forall (fun z => z < n) [3; 7].
Proof.
  split; [reflexivity|].
  exact (@next_id_exceeds_stored_ids Binary64.runtime
           (store_of (PList two_records)) two_records [3; 7] eq_refl eq_refl).
Defined.

Lemma two_ids_distinct : NoDup [3; 7].
Proof.
  constructor; [intros [H|[]]; discriminate H|].
  constructor; [intros []|constructor].
Defined.

Lemma ids_stay_distinct_witness :
  exists rec n,
    file (snd (submit_data sample_clock always_ok (Json (PDict body_simple))
                 (store_of (PList two_records)))) =
    Holds (PList (two_records ++ [PDict rec]))
    /\ int_ids (two_records ++ [PDict rec]) = Some ([3; 7] ++ [n])
    /\ Forall (fun z => z < n) [3; 7]
    /\ NoDup ([3; 7] ++ [n]).
Proof.
  exact (ids_stay_distinct sample_clock always_ok (Json (PDict body_simple))
           (store_of (PList two_records)) two_records [3; 7]
           eq_refl eq_refl two_ids_distinct eq_refl eq_refl).
Defined.

Lemma submitted_record_is_retrievable_witness :
  exists n rec,
    fst (submit_data sample_clock always_ok (Json (PDict body_with_value))
           (store_of (PList two_records))) = created (PInt n)
    /\ file (snd (submit_data sample_clock always_ok
                    (Json (PDict body_with_value))
                    (store_of (PList two_records)))) =
       Holds (PList (two_records ++ [PDict rec]))
    /\ get_data_by_id n
         (snd (submit_data sample_clock always_ok
                 (Json (PDict body_with_value))
                 (store_of (PList two_records)))) =
       (found_response (PDict rec),
        count_load (snd (submit_data sample_clock always_ok
                           (Json (PDict body_with_value))
                           (store_of (PList two_records))))).
Proof.
  exact (submitted_record_is_retrievable sample_clock always_ok
           (Json (PDict body_with_value)) (store_of (PList two_records))
           two_records [3; 7] eq_refl eq_refl eq_refl eq_refl).
Defined.

Lemma submitted_record_is_listed_witness :
  status (fst (submit_data sample_clock always_ok (Json (PDict body_simple))
                 (store_of (PList two_records)))) = 201
  /\ exists items rec,
       collection (file (store_of (PList two_records))) = PList items
       /\ get_all_data
            (snd (submit_data sample_clock always_ok
                    (Json (PDict body_simple))
                    (store_of (PList two_records)))) =
          (all_data_response (PList (items ++ [PDict rec]))
             (Z.of_nat (List.length items) + 1),
           count_load
             (snd (submit_data sample_clock always_ok
                     (Json (PDict body_simple))
                     (store_of (PList two_records))))).
Proof.
  assert (H : status (fst (submit_data sample_clock always_ok
                             (Json (PDict body_simple))
                             (store_of (PList two_records)))) = 201)
    by reflexivity.
  split; [exact H|].
  exact (submitted_record_is_listed sample_clock always_ok _ _ H).
Defined.

Lemma unusable_collection_is_left_alone_witness :
  passes_validation sample_clock (Json (PDict body_simple))
    (store_of (PDict [])) = true
  /\ submit_data sample_clock always_ok (Json (PDict body_simple))
       (store_of (PDict [])) =
     (error_response 500 (lit "Internal server error"),
      count_load (count_load (tick (tick (store_of (PDict [])))))).
Proof.
  split; [reflexivity|].
  pose proof (unusable_collection_is_left_alone sample_clock always_ok
                (Json (PDict body_simple)) (store_of (PDict []))
                (fun items H => eq_ind (PDict []) 
                   (fun v => match v with PDict _ => True | _ => False end)
                   I _ H)) as (_ & _ & H).
  specialize (H eq_refl).
  rewrite (surjective_pairing (submit_data _ _ _ _)). rewrite H. reflexivity.
Defined.

Lemma get_all_data_on_parsed_file_witness :
  get_all_data (store_of (PList two_records)) =
  (all_data_response (PList two_records) 2,
   count_load (store_of (PList two_records)))
  /\ get_all_data (store_of (PInt 5)) =
     (error_response 500 (lit "Failed to retrieve data"),
      count_load (store_of (PInt 5))).
Proof.
  split.
  - exact (proj1 (@get_all_data_on_parsed_file Binary64.runtime
                    (store_of (PList two_records))) two_records eq_refl).
  - exact (proj2 (@get_all_data_on_parsed_file Binary64.runtime
                    (store_of (PInt 5))) eq_refl).
Defined.

Lemma save_then_load_witness :
  (fst (save_data always_ok (PList two_records) empty_store) = inr true
   /\ fst (load_data (snd (save_data always_ok (PList two_records)
                             empty_store))) = inr (PList two_records))
  /\ fst (save_data never_opens (PList two_records) empty_store) = inr false.
Proof.
  split.
  - exact (proj1 (@save_then_load Binary64.runtime always_ok
                    (PList two_records) empty_store) eq_refl).
  - refine (proj1 (proj2 (@save_then_load Binary64.runtime never_opens
                            (PList two_records) empty_store) _)).
    intros H. discriminate H.
Defined.

Lemma bad_request_has_four_causes_witness :
  status (fst (submit_data sample_clock always_ok (Json (PDict body_bad_value))
                 empty_store)) = 400
  /\ snd (submit_data sample_clock always_ok (Json (PDict body_bad_value))
            empty_store) = empty_store.
Proof.
  assert (H : status (fst (submit_data sample_clock always_ok
                             (Json (PDict body_bad_value)) empty_store))
              = 400) by reflexivity.
  split; [exact H|].
  exact (proj1 (bad_request_has_four_causes sample_clock always_ok _ _ H)).
Defined.

Lemma run_fills_collection_witness :
  exists items,
    file (snd (run sample_clock always_ok
                 [Json (PDict body_simple); Json (PDict body_with_value)]
                 empty_store)) = Holds (PList items)
    /\ List.length items = 2%nat
    /\ int_ids items = Some [1; 2]
    /\ fst (get_all_data
              (snd (run sample_clock always_ok
                      [Json (PDict body_simple); Json (PDict body_with_value)]
                      empty_store))) =
       all_data_response (PList items) 2.
Proof.
  apply (run_fills_collection sample_clock always_ok
           [Json (PDict body_simple); Json (PDict body_with_value)]
           empty_store eq_refl (fun n => eq_refl)).
  intros req w' Hin.
  destruct Hin as [<-|[<-|[]]]; reflexivity.
Defined.
